(** * Booking store, notification emitter and reminder scan of the
      neighbourhood application (database.py, app.py)

    The development embeds the SQLite store the two Python modules share,
    the store functions of database.py, the booking and cancellation routes
    and the reminder scan of app.py, and then states and proves what the
    code does for each property of the booking and reminder core. *)

From Stdlib Require Import ZArith List String Ascii Bool Lia Sorted.
From Stdlib Require Import DecimalString DecimalN DecimalPos.
Import ListNotations.
Open Scope string_scope.
Open Scope Z_scope.

Infix "+++" := String.append (right associativity, at level 60).

(* ================================================================== *)
(** ** Text helpers *)

(** [contains s t]: [t] occurs in [s] as a contiguous piece (Python's
    [t in s]). *)
Fixpoint contains (s t : string) : bool :=
  String.prefix t s
  || match s with
     | EmptyString => false
     | String _ s' => contains s' t
     end.

(** Python's [str(n)] for a length. *)
Definition str_of_nat (n : nat) : string :=
  NilZero.string_of_uint (Nat.to_uint n).

(* ================================================================== *)
(** ** datetime: the calendar date of [datetime.now()], one day added,
       and [strftime('%Y-%m-%d')] *)

Module Datetime.

Record date := mkdate { year : Z; month : Z; day : Z }.

Definition is_leap (y : Z) : bool :=
  ((y mod 4 =? 0) && negb (y mod 100 =? 0)) || (y mod 400 =? 0).

Definition days_in_month (y m : Z) : Z :=
  if m =? 2 then (if is_leap y then 29 else 28)
  else if (m =? 4) || (m =? 6) || (m =? 9) || (m =? 11) then 30
  else 31.

Definition valid_date (d : date) : Prop :=
  1 <= month d <= 12 /\ 1 <= day d <= days_in_month (year d) (month d).

(** The day after [d] in the calendar: the date part of
    [d + timedelta(days=1)] wherever datetime computes it.  datetime holds
    no date after 9999-12-31, and its addition raises OverflowError in place
    of returning one: [next_day_in_range] is that check. *)
Definition add_one_day (d : date) : date :=
  if day d <? days_in_month (year d) (month d)
  then mkdate (year d) (month d) (day d + 1)
  else if month d <? 12
       then mkdate (year d) (month d + 1) 1
       else mkdate (year d + 1) 1 1.

Definition MAXYEAR : Z := 9999.

Definition next_day_in_range (d : date) : bool :=
  year (add_one_day d) <=? MAXYEAR.

Definition digit (n : Z) : ascii := ascii_of_nat (48 + Z.to_nat n).

(** [%m] and [%d]: two digits, zero padded. *)
Definition two_digits (n : Z) : string :=
  String (digit (n / 10)) (String (digit (n mod 10)) EmptyString).

(** [%Y]: the year in decimal (four digits from year 1000 on). *)
Definition decimal (n : Z) : string :=
  NilZero.string_of_uint (N.to_uint (Z.to_N n)).

(** [d.strftime('%Y-%m-%d')] *)
Definition strftime_Ymd (d : date) : string :=
  decimal (year d) +++ "-" +++ two_digits (month d) +++ "-" +++ two_digits (day d).

End Datetime.
Export Datetime.

(* ================================================================== *)
(** ** database.py: the SQLite store and the functions over it *)

Module Database.

(** *** Exceptions and outcomes *)

Inductive exn :=
| IntegrityError (msg : string)   (* sqlite3.IntegrityError *)
| OperationalError (msg : string) (* sqlite3.OperationalError *)
| OverflowError (msg : string)
| IndexError (msg : string)
| Exception (msg : string).       (* a plain Exception raised by the code *)

(** [str(e)], as an f-string shows an exception. *)
Definition exn_message (e : exn) : string :=
  match e with
  | IntegrityError msg => msg
  | OperationalError msg => msg
  | OverflowError msg => msg
  | IndexError msg => msg
  | Exception msg => msg
  end.

Inductive result (A : Type) :=
| Ok (a : A)
| Raise (e : exn).
Arguments Ok {A} a.
Arguments Raise {A} e.

Definition bind {A B} (m : result A) (k : A -> result B) : result B :=
  match m with
  | Ok a => k a
  | Raise e => Raise e
  end.

Notation "x <- m ;; k" := (bind m (fun x => k))
  (at level 61, m at next level, right associativity).

(** A value bound to a column declared NOT NULL: Python's [None] and the SQL
    literal NULL are [None]. *)
Definition not_null {A} (column : string) (v : option A) : result A :=
  match v with
  | Some a => Ok a
  | None => Raise (IntegrityError ("NOT NULL constraint failed: " +++ column))
  end.

(** The integers SQLite stores: 64 bits, signed.  sqlite3 raises
    OverflowError when a statement is given a Python int outside them,
    before the statement runs. *)
Definition sqlite_integer (z : Z) : bool :=
  (- 9223372036854775808 <=? z) && (z <=? 9223372036854775807).

Definition bind_integer (v : option Z) : result unit :=
  match v with
  | Some z =>
      if sqlite_integer z then Ok tt
      else Raise (OverflowError "Python int too large to convert to SQLite INTEGER")
  | None => Ok tt
  end.

(** A value of a column, and a row as sqlite3.Row gives it to the code:
    the columns of the SELECT by name. *)
Inductive value :=
| Integer (z : Z)
| Text (s : string)
| Null.

Definition Row : Type := list (string * value).

(** [row[column]] *)
Definition getitem (row : Row) (column : string) : result value :=
  match find (fun kv => String.eqb (fst kv) column) row with
  | Some kv => Ok (snd kv)
  | None => Raise (IndexError "No item with that key")
  end.

(** [v != n] for a value read from a row and a Python int. *)
Definition differs_from (v : value) (n : Z) : bool :=
  match v with
  | Integer z => negb (z =? n)
  | _ => true
  end.

(** *** Rows (init_db).  Columns that no function below reads are left
    out (passwords, descriptions, locations, images, timestamps).  A column
    declared NOT NULL holds a value; the other columns hold an option.
    messages.sender_id is kept as an option although it is declared
    NOT NULL, so that what an insert is asked to store can be told from
    what the table accepts. *)

Record user := mkuser { id : Z; user_name : string }.

Record resource := mkresource {
  resource_id : Z;
  resource_user_id : Z;            (* resources.user_id, the owner *)
  title : string;
  availability : option string }.

Record space := mkspace {
  space_id : Z;
  space_name : string;             (* spaces.name *)
  space_availability : option string;
  created_by : Z }.

Record event := mkevent {
  event_id : Z;
  event_name : string;             (* events.name *)
  event_date : string;             (* events.date *)
  hosted_by : Z }.

(** One shape for resource_bookings, space_bookings and event_bookings:
    [entity_id] is the column resource_id, space_id or event_id. *)
Record booking := mkbooking {
  booking_id : Z;
  user_id : Z;
  entity_id : Z;
  booking_date : string }.

Record message := mkmessage {
  message_id : Z;
  sender_id : option Z;
  receiver_id : Z;
  content : string;
  is_system_message : Z }.

(** *** The database.  A table is the list of its rows in rowid order, the
    order in which a scan of the table visits them; [seq_*] is the table's
    entry in sqlite_sequence (AUTOINCREMENT).  The FOREIGN KEY clauses of
    init_db are not enforced: no connection of the code turns
    foreign_keys on. *)

Record db := mkdb {
  users : list user;
  resources : list resource;
  spaces : list space;
  events : list event;
  resource_bookings : list booking;
  space_bookings : list booking;
  event_bookings : list booking;
  messages : list message;
  seq_resource_bookings : Z;
  seq_space_bookings : Z;
  seq_event_bookings : Z;
  seq_messages : Z;
  seq_resources : Z;
  seq_spaces : Z;
  seq_events : Z }.

(** init_db on a new file: every table empty. *)
Definition init_db : db := mkdb [] [] [] [] [] [] [] [] 0 0 0 0 0 0 0.

(** INTEGER PRIMARY KEY AUTOINCREMENT: one more than the largest rowid the
    table holds or ever held; once that is the largest rowid there is, the
    insert is refused (SQLITE_FULL), before the constraints of the columns
    are looked at. *)
Definition MAX_ROWID : Z := 9223372036854775807.

Definition largest_rowid (seq : Z) (ids : list Z) : Z :=
  Z.max seq (fold_right Z.max 0 ids).

Definition next_rowid (seq : Z) (ids : list Z) : result Z :=
  if largest_rowid seq ids <? MAX_ROWID
  then Ok (largest_rowid seq ids + 1)
  else Raise (OperationalError "database or disk is full").

Definition with_resources (d : db) (rs : list resource) (seq : Z) : db :=
  mkdb (users d) rs (spaces d) (events d)
       (resource_bookings d) (space_bookings d) (event_bookings d) (messages d)
       (seq_resource_bookings d) (seq_space_bookings d) (seq_event_bookings d)
       (seq_messages d) seq (seq_spaces d) (seq_events d).

Definition with_spaces (d : db) (ss : list space) (seq : Z) : db :=
  mkdb (users d) (resources d) ss (events d)
       (resource_bookings d) (space_bookings d) (event_bookings d) (messages d)
       (seq_resource_bookings d) (seq_space_bookings d) (seq_event_bookings d)
       (seq_messages d) (seq_resources d) seq (seq_events d).

Definition with_events (d : db) (es : list event) (seq : Z) : db :=
  mkdb (users d) (resources d) (spaces d) es
       (resource_bookings d) (space_bookings d) (event_bookings d) (messages d)
       (seq_resource_bookings d) (seq_space_bookings d) (seq_event_bookings d)
       (seq_messages d) (seq_resources d) (seq_spaces d) seq.

Definition with_resource_bookings (d : db) (bs : list booking) (seq : Z) : db :=
  mkdb (users d) (resources d) (spaces d) (events d)
       bs (space_bookings d) (event_bookings d) (messages d)
       seq (seq_space_bookings d) (seq_event_bookings d) (seq_messages d)
       (seq_resources d) (seq_spaces d) (seq_events d).

Definition with_space_bookings (d : db) (bs : list booking) (seq : Z) : db :=
  mkdb (users d) (resources d) (spaces d) (events d)
       (resource_bookings d) bs (event_bookings d) (messages d)
       (seq_resource_bookings d) seq (seq_event_bookings d) (seq_messages d)
       (seq_resources d) (seq_spaces d) (seq_events d).

Definition with_event_bookings (d : db) (bs : list booking) (seq : Z) : db :=
  mkdb (users d) (resources d) (spaces d) (events d)
       (resource_bookings d) (space_bookings d) bs (messages d)
       (seq_resource_bookings d) (seq_space_bookings d) seq (seq_messages d)
       (seq_resources d) (seq_spaces d) (seq_events d).

Definition with_messages (d : db) (ms : list message) (seq : Z) : db :=
  mkdb (users d) (resources d) (spaces d) (events d)
       (resource_bookings d) (space_bookings d) (event_bookings d) ms
       (seq_resource_bookings d) (seq_space_bookings d) (seq_event_bookings d)
       seq (seq_resources d) (seq_spaces d) (seq_events d).

(** *** Lookups.  Each SELECT binds the identifier it looks for; the
    identifiers are numbers a table can hold.  (For a Python int beyond 64
    bits sqlite3 raises OverflowError in place of finding no row.) *)

Definition get_user_by_id (d : db) (uid : Z) : option user :=
  find (fun u => id u =? uid) (users d).

Definition get_resource_by_id (d : db) (rid : Z) : option resource :=
  find (fun r => resource_id r =? rid) (resources d).

Definition get_space_by_id (d : db) (sid : Z) : option space :=
  find (fun s => space_id s =? sid) (spaces d).

(** get_event_by_id names its columns: [SELECT event_id, name, description,
    date, location FROM events WHERE event_id = ?].  The row it returns
    has those (of which the model keeps event_id, name and date) and not
    hosted_by. *)
Definition event_row (e : event) : Row :=
  [("event_id", Integer (event_id e));
   ("name", Text (event_name e));
   ("date", Text (event_date e))].

Definition get_event_by_id (d : db) (eid : Z) : option Row :=
  option_map event_row (find (fun e => event_id e =? eid) (events d)).

(** [bookings JOIN entities ON bookings.<entity>_id = entities.<entity>_id]:
    the booking table is scanned, the entity is found by its key. *)
Definition join {E : Type} (key : E -> Z) (bs : list booking) (es : list E)
  : list (booking * E) :=
  flat_map (fun b => map (pair b) (filter (fun e => entity_id b =? key e) es)) bs.

(** *** The catalog: create_resource, create_space and create_event
    (exceptions of the insert go to the caller), update_resource and
    delete_resource, and the UPDATE and DELETE statements written in the
    edit and delete routes of app.py for spaces and events.  A DELETE
    removes the entity only: its bookings stay, since the foreign keys are
    not enforced. *)

Definition create_resource (d : db) (uid : option Z) (new_title : option string)
    (new_availability : option string) : result db :=
  _ <- bind_integer uid ;;
  rowid <- next_rowid (seq_resources d) (map resource_id (resources d)) ;;
  u <- not_null "resources.user_id" uid ;;
  t <- not_null "resources.title" new_title ;;
  Ok (with_resources d
        (resources d ++ [mkresource rowid u t new_availability])%list rowid).

Definition create_space (d : db) (new_name : option string)
    (new_availability : option string) (creator : option Z) : result db :=
  _ <- bind_integer creator ;;
  rowid <- next_rowid (seq_spaces d) (map space_id (spaces d)) ;;
  n <- not_null "spaces.name" new_name ;;
  c <- not_null "spaces.created_by" creator ;;
  Ok (with_spaces d (spaces d ++ [mkspace rowid n new_availability c])%list rowid).

Definition create_event (d : db) (new_name new_date new_location : option string)
    (host : option Z) : result db :=
  _ <- bind_integer host ;;
  rowid <- next_rowid (seq_events d) (map event_id (events d)) ;;
  n <- not_null "events.name" new_name ;;
  dt <- not_null "events.date" new_date ;;
  _ <- not_null "events.location" new_location ;;
  h <- not_null "events.hosted_by" host ;;
  Ok (with_events d (events d ++ [mkevent rowid n dt h])%list rowid).

Definition update_resource (d : db) (rid : Z) (new_title : string)
    (new_availability : option string) : db :=
  with_resources d
    (map (fun r => if resource_id r =? rid
                   then mkresource (resource_id r) (resource_user_id r)
                                   new_title new_availability
                   else r) (resources d))
    (seq_resources d).

Definition update_space (d : db) (sid : Z) (new_name : string)
    (new_availability : option string) : db :=
  with_spaces d
    (map (fun s => if space_id s =? sid
                   then mkspace (space_id s) new_name new_availability (created_by s)
                   else s) (spaces d))
    (seq_spaces d).

Definition update_event (d : db) (eid : Z) (new_name new_date : string) : db :=
  with_events d
    (map (fun e => if event_id e =? eid
                   then mkevent (event_id e) new_name new_date (hosted_by e)
                   else e) (events d))
    (seq_events d).

Definition delete_resource (d : db) (rid : Z) : db :=
  with_resources d (filter (fun r => negb (resource_id r =? rid)) (resources d))
                 (seq_resources d).

Definition delete_space (d : db) (sid : Z) : db :=
  with_spaces d (filter (fun s => negb (space_id s =? sid)) (spaces d))
              (seq_spaces d).

Definition delete_event (d : db) (eid : Z) : db :=
  with_events d (filter (fun e => negb (event_id e =? eid)) (events d))
              (seq_events d).

(** *** Booking inserts *)

(** [INSERT INTO <kind>_bookings (user_id, <kind>_id, booking_date)
    VALUES (?, ?, ?)]: the numbers are bound, the row gets its rowid, the
    three columns are NOT NULL, and nothing else is checked: the tables
    declare no UNIQUE constraint. *)
Definition insert_booking (table kind_id : string) (rows : list booking) (seq : Z)
    (uid eid : option Z) (bdate : option string) : result (list booking * Z) :=
  _ <- bind_integer uid ;;
  _ <- bind_integer eid ;;
  rowid <- next_rowid seq (map booking_id rows) ;;
  u <- not_null (table +++ ".user_id") uid ;;
  e <- not_null (table +++ "." +++ kind_id) eid ;;
  bd <- not_null (table +++ ".booking_date") bdate ;;
  Ok ((rows ++ [mkbooking rowid u e bd])%list, rowid).

(** The [try]/[except] of book_resource, book_space and book_event: an
    sqlite3.IntegrityError leaves as a plain Exception, and so does any
    other exception. *)
Definition reraise {A} (fn : string) (m : result A) : result A :=
  match m with
  | Ok a => Ok a
  | Raise (IntegrityError msg) =>
      Raise (Exception ("Integrity error in " +++ fn +++ ": " +++ msg))
  | Raise e =>
      Raise (Exception ("Unexpected error in " +++ fn +++ ": " +++ exn_message e))
  end.

Definition book_resource (d : db) (uid rid : option Z) (bdate : option string)
  : result db :=
  reraise "book_resource"
    (r <- insert_booking "resource_bookings" "resource_id"
            (resource_bookings d) (seq_resource_bookings d) uid rid bdate ;;
     Ok (with_resource_bookings d (fst r) (snd r))).

Definition book_space (d : db) (uid sid : option Z) (bdate : option string)
  : result db :=
  reraise "book_space"
    (r <- insert_booking "space_bookings" "space_id"
            (space_bookings d) (seq_space_bookings d) uid sid bdate ;;
     Ok (with_space_bookings d (fst r) (snd r))).

Definition book_event (d : db) (uid eid : option Z) (bdate : option string)
  : result db :=
  reraise "book_event"
    (r <- insert_booking "event_bookings" "event_id"
            (event_bookings d) (seq_event_bookings d) uid eid bdate ;;
     Ok (with_event_bookings d (fst r) (snd r))).

(** *** Bookings of a user, with the entity's display name
    ([SELECT rb.*, r.title FROM resource_bookings rb JOIN resources r ...
    WHERE rb.user_id = ?], and the same for spaces and events) *)

Definition get_resource_bookings_by_user (d : db) (uid : Z)
  : list (booking * string) :=
  map (fun br => (fst br, title (snd br)))
      (filter (fun br => user_id (fst br) =? uid)
              (join resource_id (resource_bookings d) (resources d))).

Definition get_space_bookings_by_user (d : db) (uid : Z)
  : list (booking * string) :=
  map (fun bs => (fst bs, space_name (snd bs)))
      (filter (fun bs => user_id (fst bs) =? uid)
              (join space_id (space_bookings d) (spaces d))).

Definition get_event_bookings_by_user (d : db) (uid : Z)
  : list (booking * string) :=
  map (fun be => (fst be, event_name (snd be)))
      (filter (fun be => user_id (fst be) =? uid)
              (join event_id (event_bookings d) (events d))).

(** *** The notification emitter *)

(** [INSERT INTO messages (sender_id, receiver_id, content, timestamp,
    is_system_message) VALUES (...)].  init_db declares sender_id,
    receiver_id and content NOT NULL (the timestamp is always
    [datetime('now')]). *)
Definition insert_message (d : db) (sender receiver : option Z)
    (text : option string) (system : Z) : result db :=
  _ <- bind_integer sender ;;
  _ <- bind_integer receiver ;;
  rowid <- next_rowid (seq_messages d) (map message_id (messages d)) ;;
  _ <- not_null "messages.sender_id" sender ;;
  r <- not_null "messages.receiver_id" receiver ;;
  c <- not_null "messages.content" text ;;
  Ok (with_messages d (messages d ++ [mkmessage rowid sender r c system])%list rowid).

(** Standard output, line by line.  The three lines of
    send_system_message keep their parts: the attempt, then its outcome;
    any other line is its text. *)
Inductive log_entry :=
| SendingSystemMessage (receiver : option Z) (text : string)
| MessageSent (receiver : option Z) (text : string)
| ErrorSendingMessage (e : exn)
| Stdout (line : string).

(** Store and standard output threaded through the statements of a
    function. *)
Definition M (A : Type) : Type := db -> A * db * list log_entry.

Definition ret {A} (a : A) : M A := fun d => (a, d, []).

Definition and_then {A B} (m : M A) (k : A -> M B) : M B :=
  fun d =>
    let '(a, d1, l1) := m d in
    let '(b, d2, l2) := k a d1 in
    (b, d2, (l1 ++ l2)%list).

Notation "x <~ m ;; k" := (and_then m (fun x => k))
  (at level 61, m at next level, right associativity).
Notation "m ;;; k" := (and_then m (fun _ => k))
  (at level 61, right associativity).

Definition print (e : log_entry) : M unit := fun d => (tt, d, [e]).

Definition query {A} (q : db -> A) : M A := fun d => (q d, d, []).

Fixpoint for_each {A} (xs : list A) (body : A -> M unit) : M unit :=
  match xs with
  | [] => ret tt
  | x :: xs' => and_then (body x) (fun _ => for_each xs' body)
  end.

Definition state_of {A} (r : A * db * list log_entry) : db := snd (fst r).
Definition log_of {A} (r : A * db * list log_entry) : list log_entry := snd r.

(** send_system_message: the sender is the SQL literal NULL, the system
    flag is 1; whatever the insert raises is caught and printed. *)
Definition send_system_message (receiver : option Z) (text : string) : M unit :=
  print (SendingSystemMessage receiver text) ;;;
  fun d =>
    match insert_message d None receiver (Some text) 1 with
    | Ok d' => (tt, d', [MessageSent receiver text])
    | Raise e => (tt, d, [ErrorSendingMessage e])
    end.

(** *** The reminder scan of database.py *)

Definition resource_reminder_text (name date : string) : string :=
  "Reminder: Your resource booking '" +++ name +++ "' is scheduled for " +++ date +++ ".".

Definition space_reminder_text (name date : string) : string :=
  "Reminder: Your space booking '" +++ name +++ "' is scheduled for " +++ date +++ ".".

Definition event_reminder_text (name date : string) : string :=
  "Reminder: Your event '" +++ name +++ "' is scheduled for " +++ date +++ ".".

(** [... WHERE rb.booking_date >= ?], [... WHERE sb.booking_date >= ?] and
    [... WHERE e.date >= ?]: text against text. *)
Definition future_resource_bookings (current_date : string) (d : db)
  : list (booking * resource) :=
  filter (fun br => String.leb current_date (booking_date (fst br)))
         (join resource_id (resource_bookings d) (resources d)).

Definition future_space_bookings (current_date : string) (d : db)
  : list (booking * space) :=
  filter (fun bs => String.leb current_date (booking_date (fst bs)))
         (join space_id (space_bookings d) (spaces d)).

Definition future_event_bookings (current_date : string) (d : db)
  : list (booking * event) :=
  filter (fun be => String.leb current_date (event_date (snd be)))
         (join event_id (event_bookings d) (events d)).

(** check_upcoming_bookings of database.py ([now] is what datetime.now()
    returns).  The [except] clause re-raises and has nothing to catch
    here: send_system_message lets no exception out. *)
Definition check_upcoming_bookings (now : date) : M unit :=
  let current_date := strftime_Ymd now in
  print (Stdout ("Current Date: " +++ current_date)) ;;;
  resources <~ query (future_resource_bookings current_date) ;;
  print (Stdout ("Resource bookings found: " +++ str_of_nat (List.length resources))) ;;;
  for_each resources (fun r =>
    print (Stdout ("Sending message for resource booking: "
                  +++ title (snd r) +++ " on " +++ booking_date (fst r))) ;;;
    send_system_message (Some (user_id (fst r)))
      (resource_reminder_text (title (snd r)) (booking_date (fst r)))) ;;;
  spaces <~ query (future_space_bookings current_date) ;;
  print (Stdout ("Space bookings found: " +++ str_of_nat (List.length spaces))) ;;;
  for_each spaces (fun s =>
    print (Stdout ("Sending message for space booking: "
                  +++ space_name (snd s) +++ " on " +++ booking_date (fst s))) ;;;
    send_system_message (Some (user_id (fst s)))
      (space_reminder_text (space_name (snd s)) (booking_date (fst s)))) ;;;
  events <~ query (future_event_bookings current_date) ;;
  print (Stdout ("Event bookings found: " +++ str_of_nat (List.length events))) ;;;
  for_each events (fun e =>
    print (Stdout ("Sending message for event booking: "
                  +++ event_name (snd e) +++ " on " +++ event_date (snd e))) ;;;
    send_system_message (Some (user_id (fst e)))
      (event_reminder_text (event_name (snd e)) (event_date (snd e)))).

End Database.

(* ================================================================== *)
(** ** app.py: booking and cancellation routes, the reminder scan the
       scheduler runs *)

Module App.
Import Database.

Inductive endpoint :=
| login
| profile
| list_resources
| view_resource (id : Z)
| list_spaces
| view_space (space_id : Z)
| list_events
| view_event (event_id : Z).

(** What a route answers: the message it flashes, with its category, and
    the page it redirects to. *)
Record response := mkresponse {
  flashed : string * string;
  redirect : endpoint }.

(** [session.get('user_id')] under [if not user_id]: no entry and the
    number 0 both count as not logged in. *)
Definition logged_in (session_user_id : option Z) : option Z :=
  match session_user_id with
  | Some u => if u =? 0 then None else Some u
  | None => None
  end.

(** [SELECT 1 FROM <kind>_bookings WHERE user_id = ? AND <kind>_id = ?] *)
Definition already_booked (rows : list booking) (uid eid : Z) : bool :=
  existsb (fun b => (user_id b =? uid) && (entity_id b =? eid)) rows.

(** The booking routes.  Inside the [try], the SELECT binds the user and the
    entity: for a number beyond 64 bits it raises OverflowError, which
    [except Exception] answers.  (The lookup before the [try] binds the
    entity too.  In a store whose identifiers are rowids it finds nothing
    for a number beyond 64 bits, and the route leaves the store as it is;
    the code leaves it as it is as well, but by an OverflowError that
    nothing catches, not by the answer "not found".) *)
Definition book_resource_route (session_user_id : option Z) (now : date)
    (resource_id : Z) (d : db) : db * response :=
  match logged_in session_user_id with
  | None => (d, mkresponse ("Please log in to book this resource.", "error") login)
  | Some uid =>
    match get_resource_by_id d resource_id with
    | None => (d, mkresponse ("Resource not found.", "error") list_resources)
    | Some _ =>
      if negb (sqlite_integer uid && sqlite_integer resource_id)
      then (d, mkresponse ("An unexpected error occurred. Please try again.", "error")
                          (view_resource resource_id))
      else if already_booked (resource_bookings d) uid resource_id
      then (d, mkresponse ("You have already booked this resource.", "info")
                          (view_resource resource_id))
      else
        let booking_date := strftime_Ymd now in
        match book_resource d (Some uid) (Some resource_id) (Some booking_date) with
        | Ok d' =>
            (d', mkresponse ("Resource booked successfully!", "success")
                            (view_resource resource_id))
        | Raise (IntegrityError _) =>
            (d, mkresponse ("An error occurred while booking the resource. Please try again.",
                            "error") (view_resource resource_id))
        | Raise _ =>
            (d, mkresponse ("An unexpected error occurred. Please try again.", "error")
                           (view_resource resource_id))
        end
    end
  end.

Definition book_space_route (session_user_id : option Z) (now : date)
    (space_id : Z) (d : db) : db * response :=
  match logged_in session_user_id with
  | None => (d, mkresponse ("Please log in to book this space.", "error") login)
  | Some uid =>
    match get_space_by_id d space_id with
    | None => (d, mkresponse ("Space not found.", "error") list_spaces)
    | Some _ =>
      if negb (sqlite_integer uid && sqlite_integer space_id)
      then (d, mkresponse ("An unexpected error occurred. Please try again.", "error")
                          (view_space space_id))
      else if already_booked (space_bookings d) uid space_id
      then (d, mkresponse ("You have already booked this space.", "info")
                          (view_space space_id))
      else
        let booking_date := strftime_Ymd now in
        match book_space d (Some uid) (Some space_id) (Some booking_date) with
        | Ok d' =>
            (d', mkresponse ("Space booked successfully!", "success")
                            (view_space space_id))
        | Raise (IntegrityError _) =>
            (d, mkresponse ("An error occurred while booking the space. Please try again.",
                            "error") (view_space space_id))
        | Raise _ =>
            (d, mkresponse ("An unexpected error occurred. Please try again.", "error")
                           (view_space space_id))
        end
    end
  end.

Definition book_event_route (session_user_id : option Z) (now : date)
    (event_id : Z) (d : db) : db * response :=
  match logged_in session_user_id with
  | None => (d, mkresponse ("Please log in to book this event.", "error") login)
  | Some uid =>
    match get_event_by_id d event_id with
    | None => (d, mkresponse ("Event not found.", "error") list_events)
    | Some _ =>
      if negb (sqlite_integer uid && sqlite_integer event_id)
      then (d, mkresponse ("An unexpected error occurred. Please try again.", "error")
                          (view_event event_id))
      else if already_booked (event_bookings d) uid event_id
      then (d, mkresponse ("You have already booked this event.", "info")
                          (view_event event_id))
      else
        let booking_date := strftime_Ymd now in
        match book_event d (Some uid) (Some event_id) (Some booking_date) with
        | Ok d' =>
            (d', mkresponse ("Event booked successfully!", "success")
                            (view_event event_id))
        | Raise (IntegrityError _) =>
            (d, mkresponse ("An error occurred while booking the event. Please try again.",
                            "error") (view_event event_id))
        | Raise _ =>
            (d, mkresponse ("An unexpected error occurred. Please try again.", "error")
                           (view_event event_id))
        end
    end
  end.

(** [DELETE FROM <kind>_bookings WHERE booking_id = ? AND user_id = ?] *)
Definition delete_booking (rows : list booking) (bid uid : Z) : list booking :=
  filter (fun b => negb ((booking_id b =? bid) && (user_id b =? uid))) rows.

(** The unbook routes.  The DELETE binds the booking and the user: for a
    number beyond 64 bits it raises OverflowError and the [except] branch
    answers; otherwise the DELETE raises nothing, and the number of rows
    it deleted is not looked at. *)
Definition canceling_error : response :=
  mkresponse ("An error occurred while canceling the booking. Please try again.", "error")
             profile.

Definition unbook_resource (session_user_id : option Z) (booking_id : Z) (d : db)
  : db * response :=
  match logged_in session_user_id with
  | None => (d, mkresponse ("Please log in to unbook this resource.", "error") login)
  | Some uid =>
      if negb (sqlite_integer booking_id && sqlite_integer uid)
      then (d, canceling_error)
      else
      (with_resource_bookings d (delete_booking (resource_bookings d) booking_id uid)
                              (seq_resource_bookings d),
       mkresponse ("Resource booking canceled successfully.", "success") profile)
  end.

Definition unbook_space (session_user_id : option Z) (booking_id : Z) (d : db)
  : db * response :=
  match logged_in session_user_id with
  | None => (d, mkresponse ("Please log in to unbook this space.", "error") login)
  | Some uid =>
      if negb (sqlite_integer booking_id && sqlite_integer uid)
      then (d, canceling_error)
      else
      (with_space_bookings d (delete_booking (space_bookings d) booking_id uid)
                           (seq_space_bookings d),
       mkresponse ("Space booking canceled successfully.", "success") profile)
  end.

Definition unbook_event (session_user_id : option Z) (booking_id : Z) (d : db)
  : db * response :=
  match logged_in session_user_id with
  | None => (d, mkresponse ("Please log in to unbook this event.", "error") login)
  | Some uid =>
      if negb (sqlite_integer booking_id && sqlite_integer uid)
      then (d, canceling_error)
      else
      (with_event_bookings d (delete_booking (event_bookings d) booking_id uid)
                           (seq_event_bookings d),
       mkresponse ("Event booking canceled successfully.", "success") profile)
  end.

(** *** The reminder scan of app.py.  It is defined after the import of
    database.py's function of the same name and so is the one the name
    check_upcoming_bookings stands for when the scheduler's job runs. *)

Definition resource_tomorrow_text (name : string) : string :=
  "Reminder: Your resource booking '" +++ name +++ "' is scheduled for tomorrow.".

Definition space_tomorrow_text (name : string) : string :=
  "Reminder: Your space booking '" +++ name +++ "' is scheduled for tomorrow.".

Definition event_tomorrow_text (name : string) : string :=
  "Reminder: Your event '" +++ name +++ "' is scheduled for tomorrow.".

(** [... WHERE rb.booking_date = ?], [... WHERE sb.booking_date = ?],
    [... WHERE e.date = ?] *)
Definition upcoming_resource_bookings (upcoming_date : string) (d : db)
  : list (booking * resource) :=
  filter (fun br => String.eqb (booking_date (fst br)) upcoming_date)
         (join resource_id (resource_bookings d) (resources d)).

Definition upcoming_space_bookings (upcoming_date : string) (d : db)
  : list (booking * space) :=
  filter (fun bs => String.eqb (booking_date (fst bs)) upcoming_date)
         (join space_id (space_bookings d) (spaces d)).

Definition upcoming_event_bookings (upcoming_date : string) (d : db)
  : list (booking * event) :=
  filter (fun be => String.eqb (event_date (snd be)) upcoming_date)
         (join event_id (event_bookings d) (events d)).

(** check_upcoming_bookings of app.py from its first query on, for a [now]
    whose next day datetime holds.  For the other dates
    [current_date + timedelta(days=1)] raises before the first query: that
    case is [upcoming_date], read by schedule_notifications below. *)
Definition upcoming_date (now : date) : result string :=
  if next_day_in_range now
  then Ok (strftime_Ymd (add_one_day now))
  else Raise (OverflowError "date value out of range").

Definition check_upcoming_bookings (now : date) : M unit :=
  let upcoming_date := strftime_Ymd (add_one_day now) in
  resources <~ query (upcoming_resource_bookings upcoming_date) ;;
  for_each resources (fun r =>
    send_system_message (Some (user_id (fst r)))
      (resource_tomorrow_text (title (snd r)))) ;;;
  spaces <~ query (upcoming_space_bookings upcoming_date) ;;
  for_each spaces (fun s =>
    send_system_message (Some (user_id (fst s)))
      (space_tomorrow_text (space_name (snd s)))) ;;;
  events <~ query (upcoming_event_bookings upcoming_date) ;;
  for_each events (fun e =>
    send_system_message (Some (user_id (fst e)))
      (event_tomorrow_text (event_name (snd e)))).

(** schedule_notifications, the job of the scheduler (its first print,
    which shows the time of day, is left out), with its [try] and [except]:
    the scan raises when the day after [now] is out of datetime's range,
    and the job prints the error; and the scheduler itself as the run of
    its ticks, each with the date the clock shows then.  The store is all
    that passes from one tick to the next, or from one process to the
    next.  (The stores are those init_db has made.  On a database file
    without tables the first query of the scan raises OperationalError, and
    the job prints it by the same branch.) *)
Definition schedule_notifications (now : date) : M unit :=
  match upcoming_date now with
  | Ok _ =>
      check_upcoming_bookings now ;;;
      print (Stdout "Notifications sent successfully.")
  | Raise e =>
      print (Stdout ("Error while running check_upcoming_bookings: " +++ exn_message e))
  end.

Definition scheduler (ticks : list date) : M unit :=
  for_each ticks schedule_notifications.

End App.

(* ================================================================== *)
(** ** What a run shows, and the properties of the specification in its
       own words *)

Module Spec.
Import Database.

(** The reminders a run hands to send_system_message, in the order of the
    calls: receiver and text. *)
Fixpoint reminders (l : list log_entry) : list (option Z * string) :=
  match l with
  | [] => []
  | SendingSystemMessage r t :: l' => (r, t) :: reminders l'
  | _ :: l' => reminders l'
  end.

(** The sends of a run that ended in the [except] clause. *)
Fixpoint failed_sends (l : list log_entry) : nat :=
  match l with
  | [] => O
  | ErrorSendingMessage _ :: l' => S (failed_sends l')
  | _ :: l' => failed_sends l'
  end.

(** The rows app.py's scan selects on [now], turned into the reminders it
    asks for: resources, then spaces, then events. *)
Definition app_due_reminders (now : date) (d : db) : list (option Z * string) :=
  let upcoming_date := strftime_Ymd (add_one_day now) in
  (map (fun r => (Some (user_id (fst r)), App.resource_tomorrow_text (title (snd r))))
       (App.upcoming_resource_bookings upcoming_date d)
   ++ map (fun s => (Some (user_id (fst s)), App.space_tomorrow_text (space_name (snd s))))
          (App.upcoming_space_bookings upcoming_date d)
   ++ map (fun e => (Some (user_id (fst e)), App.event_tomorrow_text (event_name (snd e))))
          (App.upcoming_event_bookings upcoming_date d))%list.

(** The same for database.py's scan. *)
Definition database_due_reminders (now : date) (d : db) : list (option Z * string) :=
  let current_date := strftime_Ymd now in
  (map (fun r => (Some (user_id (fst r)),
                  resource_reminder_text (title (snd r)) (booking_date (fst r))))
       (future_resource_bookings current_date d)
   ++ map (fun s => (Some (user_id (fst s)),
                     space_reminder_text (space_name (snd s)) (booking_date (fst s))))
          (future_space_bookings current_date d)
   ++ map (fun e => (Some (user_id (fst e)),
                     event_reminder_text (event_name (snd e)) (event_date (snd e))))
          (future_event_bookings current_date d))%list.



(** The specification's governing date of a resource booking: the
    availability field the resource has now. *)
Definition spec_resource_governing_date (d : db) (b : booking) : option string :=
  match get_resource_by_id d (entity_id b) with
  | Some r => availability r
  | None => None
  end.

(** The resource bookings the specification calls due on [now], under its
    exact-day policy: governing date equal to the day after [now]. *)
Definition spec_due_resource_bookings (now : date) (d : db) : list booking :=
  filter (fun b => match spec_resource_governing_date d b with
                   | Some g => String.eqb g (strftime_Ymd (add_one_day now))
                   | None => false
                   end)
         (resource_bookings d).

(** At most one booking row for a user and an entity. *)
Definition unique_bookings (rows : list booking) : Prop :=
  NoDup (map (fun b => (user_id b, entity_id b)) rows).

(** Rows in rowid order with their key unique: what a table with an
    INTEGER PRIMARY KEY is. *)
Definition rowid_ordered (ids : list Z) : Prop := StronglySorted Z.lt ids.

Record well_formed (d : db) : Prop := {
  wf_resources : NoDup (map resource_id (resources d));
  wf_spaces : NoDup (map space_id (spaces d));
  wf_events : NoDup (map event_id (events d));
  wf_resource_bookings : rowid_ordered (map booking_id (resource_bookings d));
  wf_space_bookings : rowid_ordered (map booking_id (space_bookings d));
  wf_event_bookings : rowid_ordered (map booking_id (event_bookings d)) }.

(** Stores used as concrete inputs.  User 1 has booked resource 7
    (booking 1, dated 2024-11-10); the resource is available on
    2024-12-25. *)
Definition store1 : db :=
  mkdb [mkuser 1 "A"; mkuser 2 "B"]
       [mkresource 7 2 "Ladder" (Some "2024-12-25")] [] []
       [mkbooking 1 1 7 "2024-11-10"] [] []
       [] 1 0 0 0 7 0 0.

(** [store1] with a second booking of the resource, by user 2, dated
    2024-11-09. *)
Definition store2 : db :=
  mkdb [mkuser 1 "A"; mkuser 2 "B"]
       [mkresource 7 2 "Ladder" (Some "2024-12-25")]
       [mkspace 4 "Hall" (Some "2024-11-10") 1]
       [mkevent 3 "Cleanup" "2024-11-10" 2]
       [mkbooking 1 1 7 "2024-11-10"; mkbooking 2 2 7 "2024-11-09"]
       [mkbooking 1 2 4 "2024-11-10"]
       [mkbooking 1 1 3 "2024-11-01"]
       [] 2 1 1 0 7 4 3.

Definition nov9 : date := mkdate 2024 11 9.

(** A new database in which user 2 has listed a resource. *)
Definition listed : db :=
  with_resources init_db [mkresource 1 2 "Ladder" (Some "2024-12-25")] 1.

(** The invariant of the store. *)
Definition store_invariant (d : db) : Prop :=
  well_formed d
  /\ unique_bookings (resource_bookings d)
  /\ unique_bookings (space_bookings d)
  /\ unique_bookings (event_bookings d).

(** What changes the store: a request to a booking or unbook route, a tick
    of the scheduler, an operation of the catalog. *)
Inductive step : db -> db -> Prop :=
| step_book_resource s now eid d :
    step d (fst (App.book_resource_route s now eid d))
| step_book_space s now eid d :
    step d (fst (App.book_space_route s now eid d))
| step_book_event s now eid d :
    step d (fst (App.book_event_route s now eid d))
| step_unbook_resource s bid d :
    step d (fst (App.unbook_resource s bid d))
| step_unbook_space s bid d :
    step d (fst (App.unbook_space s bid d))
| step_unbook_event s bid d :
    step d (fst (App.unbook_event s bid d))
| step_tick now d :
    step d (state_of (App.schedule_notifications now d))
| step_create_resource u t a d d' :
    create_resource d u t a = Ok d' -> step d d'
| step_create_space n a c d d' :
    create_space d n a c = Ok d' -> step d d'
| step_create_event n dt l h d d' :
    create_event d n dt l h = Ok d' -> step d d'
| step_update_resource rid t a d :
    step d (update_resource d rid t a)
| step_update_space sid n a d :
    step d (update_space d sid n a)
| step_update_event eid n dt d :
    step d (update_event d eid n dt)
| step_delete_resource rid d :
    step d (delete_resource d rid)
| step_delete_space sid d :
    step d (delete_space d sid)
| step_delete_event eid d :
    step d (delete_event d eid).

(** The stores the application gets to from a new database file. *)
Inductive reachable : db -> Prop :=
| reachable_init : reachable init_db
| reachable_step d d' : reachable d -> step d d' -> reachable d'.

End Spec.

(** No '-' in a text. *)
Fixpoint dash_free (s : string) : bool :=
  match s with
  | EmptyString => true
  | String c s' => negb (Ascii.eqb c "-") && dash_free s'
  end.

(* ================================================================== *)
(** ** app.py: the check of an uploaded file's name *)

Module Uploads.

(** [str.lower] on the characters A to Z.  (No character outside A to Z
    has one of the letters of the allowed extensions as its lower case, so
    for the test below nothing else matters.) *)
Definition lower_char (c : ascii) : ascii :=
  let n := nat_of_ascii c in
  if ((65 <=? n) && (n <=? 90))%nat then ascii_of_nat (n + 32) else c.

Fixpoint lower (s : string) : string :=
  match s with
  | EmptyString => EmptyString
  | String c s' => String (lower_char c) (lower s')
  end.

(** [filename.rsplit('.', 1)[1]] when there is a '.' in [filename]: the
    text after its last '.'. *)
Fixpoint after_last_dot (s : string) : option string :=
  match s with
  | EmptyString => None
  | String c s' =>
      match after_last_dot s' with
      | Some e => Some e
      | None => if Ascii.eqb c "." then Some s' else None
      end
  end.

Definition ALLOWED_EXTENSIONS : list string := ["png"; "jpg"; "jpeg"].

Definition allowed_file (filename : string) : bool :=
  match after_last_dot filename with
  | Some ext => existsb (String.eqb (lower ext)) ALLOWED_EXTENSIONS
  | None => false
  end.

(** No '.' in a text. *)
Fixpoint dot_free (s : string) : bool :=
  match s with
  | EmptyString => true
  | String c s' => negb (Ascii.eqb c ".") && dot_free s'
  end.

End Uploads.

(* ================================================================== *)
(** ** database.py and app.py: messages between users *)

Module Messages.
Import Database.

(** send_message: the row has a sender and the default system flag, 0.
    An exception of the insert is raised again as it is.  (The function
    closes the connection when it is done; its caller does not use the
    connection afterwards.) *)
Definition send_message (d : db) (sender receiver : option Z)
    (text : option string) : result db :=
  insert_message d sender receiver text 0.

(** The rows of the inbox's query for system messages
    ([... WHERE receiver_id = ? AND is_system_message = 1]), before they are
    ordered by timestamp. *)
Definition system_messages (d : db) (uid : Z) : list message :=
  filter (fun m => (receiver_id m =? uid) && (is_system_message m =? 1))
         (messages d).

End Messages.

(* ================================================================== *)
(** ** app.py: the routes that edit and delete entities, and the route
       that sends a message *)

Module Site.
Import Database Messages.

Inductive method := GET | POST.

Inductive target :=
| page (e : App.endpoint)
| inbox
| conversation (user_id : Z).

(** What a route returns: a flashed message and a redirect, a rendered
    template, or an exception that leaves the route. *)
Inductive answer :=
| Redirect (flash : string * string) (to : target)
| Render (template : string)
| Uncaught (e : exn).

(** edit_resource.  The login test is [user_id is None]; the values of the
    form are those of a request that carries them. *)
Definition edit_resource (session_user_id : option Z) (m : method)
    (form_title form_availability : string) (id : Z) (d : db) : db * answer :=
  match session_user_id with
  | None =>
      (d, Redirect ("You must be logged in to edit resources.", "error")
                   (page App.login))
  | Some uid =>
    match get_resource_by_id d id with
    | None => (d, Redirect ("Resource not found.", "error") (page App.list_resources))
    | Some r =>
      if negb (resource_user_id r =? uid)
      then (d, Redirect ("You are not authorized to edit this resource.", "error")
                        (page App.list_resources))
      else
        match m with
        | POST =>
            (update_resource d id form_title (Some form_availability),
             Redirect ("Resource updated successfully.", "success")
                      (page (App.view_resource id)))
        | GET => (d, Render "edit_resource.html")
        end
    end
  end.

Definition delete_resource_route (session_user_id : option Z) (id : Z) (d : db)
  : db * answer :=
  match session_user_id with
  | None =>
      (d, Redirect ("You must be logged in to delete resources.", "error")
                   (page App.login))
  | Some uid =>
    match get_resource_by_id d id with
    | None => (d, Redirect ("Resource not found.", "error") (page App.list_resources))
    | Some r =>
      if negb (resource_user_id r =? uid)
      then (d, Redirect ("You are not authorized to delete this resource.", "error")
                        (page App.list_resources))
      else (delete_resource d id,
            Redirect ("Resource deleted successfully.", "success")
                     (page App.list_resources))
    end
  end.

Definition edit_space (session_user_id : option Z) (m : method)
    (form_name form_availability : string) (space_id : Z) (d : db) : db * answer :=
  match App.logged_in session_user_id with
  | None => (d, Redirect ("Please log in to edit spaces.", "error") (page App.login))
  | Some uid =>
    match get_space_by_id d space_id with
    | None => (d, Redirect ("Space not found.", "error") (page App.list_spaces))
    | Some s =>
      if negb (created_by s =? uid)
      then (d, Redirect ("You are not authorized to edit this space.", "error")
                        (page App.list_spaces))
      else
        match m with
        | POST =>
            (update_space d space_id form_name (Some form_availability),
             Redirect ("Space updated successfully.", "success")
                      (page (App.view_space space_id)))
        | GET => (d, Render "edit_space.html")
        end
    end
  end.

Definition delete_space (session_user_id : option Z) (space_id : Z) (d : db)
  : db * answer :=
  match App.logged_in session_user_id with
  | None => (d, Redirect ("Please log in to delete spaces.", "error") (page App.login))
  | Some uid =>
    match get_space_by_id d space_id with
    | None => (d, Redirect ("Space not found.", "error") (page App.list_spaces))
    | Some s =>
      if negb (created_by s =? uid)
      then (d, Redirect ("You are not authorized to delete this space.", "error")
                        (page App.list_spaces))
      else (Database.delete_space d space_id,
            Redirect ("Space deleted successfully.", "success")
                     (page App.list_spaces))
    end
  end.

(** edit_event and delete_event: the row of get_event_by_id, the read of
    [event['hosted_by']] (an exception of which leaves the route), the test
    of the host, then the UPDATE or the DELETE. *)
Definition edit_event (session_user_id : option Z) (m : method)
    (form_name form_date : string) (event_id : Z) (d : db) : db * answer :=
  match App.logged_in session_user_id with
  | None => (d, Redirect ("Please log in to edit events.", "error") (page App.login))
  | Some uid =>
    match get_event_by_id d event_id with
    | None => (d, Redirect ("Event not found.", "error") (page App.list_events))
    | Some event =>
      match getitem event "hosted_by" with
      | Raise e => (d, Uncaught e)
      | Ok host =>
        if differs_from host uid
        then (d, Redirect ("You are not authorized to edit this event.", "error")
                          (page App.list_events))
        else
          match m with
          | POST =>
              (update_event d event_id form_name form_date,
               Redirect ("Event updated successfully.", "success")
                        (page (App.view_event event_id)))
          | GET => (d, Render "edit_event.html")
          end
      end
    end
  end.

Definition delete_event (session_user_id : option Z) (event_id : Z) (d : db)
  : db * answer :=
  match App.logged_in session_user_id with
  | None => (d, Redirect ("Please log in to delete events.", "error") (page App.login))
  | Some uid =>
    match get_event_by_id d event_id with
    | None => (d, Redirect ("Event not found.", "error") (page App.list_events))
    | Some event =>
      match getitem event "hosted_by" with
      | Raise e => (d, Uncaught e)
      | Ok host =>
        if differs_from host uid
        then (d, Redirect ("You are not authorized to delete this event.", "error")
                          (page App.list_events))
        else (Database.delete_event d event_id,
              Redirect ("Event deleted successfully.", "success")
                       (page App.list_events))
      end
    end
  end.

(** send_message_route; [form_content] is [request.form.get('content')],
    which is None when the form has no such field. *)
Definition send_message_route (session_user_id : option Z) (m : method)
    (form_content : option string) (receiver_id : Z) (d : db) : db * answer :=
  match App.logged_in session_user_id with
  | None => (d, Redirect ("Please log in to send a message.", "error") (page App.login))
  | Some uid =>
    if receiver_id <=? 0
    then (d, Redirect ("Please select a valid recipient.", "error") inbox)
    else
      match get_user_by_id d receiver_id with
      | None => (d, Redirect ("Recipient not found.", "error") inbox)
      | Some _ =>
        match m with
        | POST =>
            match form_content with
            | Some (String c text) =>
                match send_message d (Some uid) (Some receiver_id)
                        (Some (String c text)) with
                | Ok d' =>
                    (d', Redirect ("Message sent successfully!", "success")
                                  (conversation receiver_id))
                | Raise e => (d, Uncaught e)
                end
            | _ =>
                (d, Redirect ("Message content cannot be empty.", "error")
                             (conversation receiver_id))
            end
        | GET => (d, Render "send_message.html")
        end
      end
  end.

(** One request to the application or one operation on its store: those of
    [step], and the routes above. *)
Inductive request : db -> db -> Prop :=
| request_step d d' : Spec.step d d' -> request d d'
| request_edit_resource s m t a id d :
    request d (fst (edit_resource s m t a id d))
| request_delete_resource s id d :
    request d (fst (delete_resource_route s id d))
| request_edit_space s m n a id d :
    request d (fst (edit_space s m n a id d))
| request_delete_space s id d :
    request d (fst (delete_space s id d))
| request_edit_event s m n dt id d :
    request d (fst (edit_event s m n dt id d))
| request_delete_event s id d :
    request d (fst (delete_event s id d))
| request_send_message s m c r d :
    request d (fst (send_message_route s m c r d)).

(** A run of requests. *)
Inductive run : db -> db -> Prop :=
| run_done d : run d d
| run_next d d' d'' : run d d' -> request d' d'' -> run d d''.

(** No row of the messages table is a system message. *)
Definition no_system_message (d : db) : Prop :=
  Forall (fun m => is_system_message m = 0) (messages d).

End Site.
Import Database Spec.

(* ================================================================== *)
(** ** Evaluation on concrete inputs *)

Example strftime_ex1 : strftime_Ymd (mkdate 2024 11 9) = "2024-11-09".
Proof. reflexivity. Qed.

Example add_one_day_ex1 :
  strftime_Ymd (add_one_day (mkdate 2024 2 28)) = "2024-02-29"
  /\ strftime_Ymd (add_one_day (mkdate 2023 12 31)) = "2024-01-01"
  /\ strftime_Ymd (add_one_day (mkdate 2023 2 28)) = "2023-03-01".
Proof. repeat split; reflexivity. Qed.

Example contains_ex1 :
  contains "hello world" "lo w" = true /\ contains "hello" "lol" = false.
Proof. split; reflexivity. Qed.

Example app_scan_ex1 :
  log_of (App.check_upcoming_bookings nov9 store1)
  = [SendingSystemMessage (Some 1)
       "Reminder: Your resource booking 'Ladder' is scheduled for tomorrow.";
     ErrorSendingMessage
       (IntegrityError "NOT NULL constraint failed: messages.sender_id")].
Proof. reflexivity. Qed.

Example database_scan_ex1 :
  reminders (log_of (Database.check_upcoming_bookings nov9 store2))
  = [(Some 1, "Reminder: Your resource booking 'Ladder' is scheduled for 2024-11-10.");
     (Some 2, "Reminder: Your resource booking 'Ladder' is scheduled for 2024-11-09.");
     (Some 2, "Reminder: Your space booking 'Hall' is scheduled for 2024-11-10.");
     (Some 1, "Reminder: Your event 'Cleanup' is scheduled for 2024-11-10.")].
Proof. reflexivity. Qed.

(* ================================================================== *)
(** ** The store and output monad *)

Lemma reminders_app (l1 l2 : list log_entry) :
  reminders (l1 ++ l2)%list = (reminders l1 ++ reminders l2)%list.
Proof.
  induction l1 as [|e l1 IH]; simpl; [reflexivity|].
  destruct e; simpl; rewrite IH; reflexivity.
Qed.

Lemma failed_sends_app (l1 l2 : list log_entry) :
  failed_sends (l1 ++ l2)%list = (failed_sends l1 + failed_sends l2)%nat.
Proof.
  induction l1 as [|e l1 IH]; simpl; [reflexivity|].
  destruct e; simpl; rewrite IH; reflexivity.
Qed.

Lemma state_of_and_then {A B} (m : M A) (k : A -> M B) (d : db) :
  state_of (and_then m k d) = state_of (k (fst (fst (m d))) (state_of (m d))).
Proof.
  unfold and_then, state_of. destruct (m d) as [[a d1] l1]; simpl.
  destruct (k a d1) as [[b d2] l2]; reflexivity.
Qed.

Lemma log_of_and_then {A B} (m : M A) (k : A -> M B) (d : db) :
  log_of (and_then m k d)
  = (log_of (m d) ++ log_of (k (fst (fst (m d))) (state_of (m d))))%list.
Proof.
  unfold and_then, state_of, log_of. destruct (m d) as [[a d1] l1]; simpl.
  destruct (k a d1) as [[b d2] l2]; reflexivity.
Qed.

Section Loops.

Context {A : Type}.

(** A loop whose body leaves the store as it found it leaves it so. *)
Lemma for_each_state (xs : list A) (body : A -> M unit) (d : db) :
  (forall x d', state_of (body x d') = d') ->
  state_of (for_each xs body d) = d.
Proof.
  intros Hbody. induction xs as [|x xs IH]; cbn [for_each]; [reflexivity|].
  rewrite state_of_and_then, Hbody. exact IH.
Qed.

(** A loop whose body asks for one reminder per item asks for them in the
    order of the items. *)
Lemma for_each_reminders (xs : list A) (body : A -> M unit)
    (g : A -> option Z * string) (d : db) :
  (forall x d', state_of (body x d') = d') ->
  (forall x d', reminders (log_of (body x d')) = [g x]) ->
  reminders (log_of (for_each xs body d)) = map g xs.
Proof.
  intros Hst Hbody. induction xs as [|x xs IH]; cbn [for_each]; [reflexivity|].
  rewrite log_of_and_then, reminders_app, Hbody, Hst, IH. reflexivity.
Qed.

Lemma for_each_failed_sends (xs : list A) (body : A -> M unit) (d : db) :
  (forall x d', state_of (body x d') = d') ->
  (forall x d', failed_sends (log_of (body x d')) = 1%nat) ->
  failed_sends (log_of (for_each xs body d)) = List.length xs.
Proof.
  intros Hst Hbody. induction xs as [|x xs IH]; cbn [for_each]; [reflexivity|].
  rewrite log_of_and_then, failed_sends_app, Hbody, Hst, IH. reflexivity.
Qed.

End Loops.

(* ================================================================== *)
(** ** The emitter and the two scans *)

(** An insert that names no sender is refused, at the latest by the
    NOT NULL constraint of messages.sender_id. *)
Lemma insert_message_no_sender (d : db) (receiver : option Z) (text : option string)
    (flag : Z) :
  exists e, insert_message d None receiver text flag = Raise e.
Proof.
  unfold insert_message. cbn [bind_integer bind].
  destruct (bind_integer receiver); cbn [bind]; [|eexists; reflexivity].
  destruct (next_rowid _ _); cbn [bind not_null]; eexists; reflexivity.
Qed.

(** Every call of send_system_message is refused by the store: the store
    is left as it was, the error is printed and the call returns. *)
Lemma send_system_message_run (receiver : option Z) (text : string) (d : db) :
  exists e,
    send_system_message receiver text d
    = (tt, d, [SendingSystemMessage receiver text; ErrorSendingMessage e]).
Proof.
  destruct (insert_message_no_sender d receiver (Some text) 1) as [e He].
  exists e. unfold send_system_message, and_then, print. rewrite He. reflexivity.
Qed.

Lemma send_system_message_state (receiver : option Z) (text : string) (d : db) :
  state_of (send_system_message receiver text d) = d.
Proof.
  destruct (send_system_message_run receiver text d) as [e He]. rewrite He. reflexivity.
Qed.

Lemma send_system_message_reminders (receiver : option Z) (text : string) (d : db) :
  reminders (log_of (send_system_message receiver text d)) = [(receiver, text)].
Proof.
  destruct (send_system_message_run receiver text d) as [e He]. rewrite He. reflexivity.
Qed.

Lemma send_system_message_failed (receiver : option Z) (text : string) (d : db) :
  failed_sends (log_of (send_system_message receiver text d)) = 1%nat.
Proof.
  destruct (send_system_message_run receiver text d) as [e He]. rewrite He. reflexivity.
Qed.

Lemma and_then_query {A B} (q : db -> A) (k : A -> M B) (d : db) :
  and_then (query q) k d = k (q d) d.
Proof.
  unfold and_then, query. destruct (k (q d) d) as [[b d2] l2]. reflexivity.
Qed.

Lemma query_run {A} (q : db -> A) (d : db) :
  fst (fst (query q d)) = q d /\ state_of (query q d) = d /\ log_of (query q d) = [].
Proof. repeat split. Qed.

Ltac run_scan :=
  repeat (rewrite ?and_then_query, ?state_of_and_then, ?log_of_and_then,
            ?reminders_app, ?failed_sends_app,
            ?(fun A q d => proj1 (@query_run A q d)),
            ?(fun A q d => proj1 (proj2 (@query_run A q d))),
            ?(fun A q d => proj2 (proj2 (@query_run A q d)));
          rewrite ?for_each_state by auto using send_system_message_state).

Lemma app_scan_state (now : date) (d : db) :
  state_of (App.check_upcoming_bookings now d) = d.
Proof. unfold App.check_upcoming_bookings. run_scan. reflexivity. Qed.

Lemma app_scan_reminders (now : date) (d : db) :
  reminders (log_of (App.check_upcoming_bookings now d)) = app_due_reminders now d.
Proof.
  unfold App.check_upcoming_bookings, app_due_reminders. run_scan.
  cbn [reminders app].
  f_equal; [|f_equal];
    apply for_each_reminders;
    auto using send_system_message_state, send_system_message_reminders.
Qed.

Lemma print_run (e : log_entry) (d : db) :
  state_of (print e d) = d /\ log_of (print e d) = [e].
Proof. split; reflexivity. Qed.

Lemma print_then_send_run (line : string) (receiver : option Z) (text : string)
    (d : db) :
  exists e,
    (print (Stdout line) ;;; send_system_message receiver text) d
    = (tt, d,
       [Stdout line; SendingSystemMessage receiver text; ErrorSendingMessage e]).
Proof.
  destruct (send_system_message_run receiver text d) as [e He].
  exists e. unfold and_then at 1. unfold print at 1. rewrite He. reflexivity.
Qed.

Lemma print_then_send_state (line : string) (receiver : option Z) (text : string)
    (d : db) :
  state_of ((print (Stdout line) ;;; send_system_message receiver text) d) = d.
Proof.
  destruct (print_then_send_run line receiver text d) as [e He]. rewrite He. reflexivity.
Qed.

Lemma print_then_send_reminders (line : string) (receiver : option Z) (text : string)
    (d : db) :
  reminders (log_of ((print (Stdout line) ;;; send_system_message receiver text) d))
  = [(receiver, text)].
Proof.
  destruct (print_then_send_run line receiver text d) as [e He]. rewrite He. reflexivity.
Qed.

Ltac run_database_scan :=
  repeat (rewrite ?and_then_query, ?state_of_and_then, ?log_of_and_then,
            ?reminders_app, ?failed_sends_app,
            ?(fun A q d => proj1 (@query_run A q d)),
            ?(fun A q d => proj1 (proj2 (@query_run A q d))),
            ?(fun A q d => proj2 (proj2 (@query_run A q d))),
            ?(fun e d => proj1 (print_run e d)),
            ?(fun e d => proj2 (print_run e d));
          rewrite ?for_each_state
            by (intros; apply print_then_send_state)).

Lemma database_scan_state (now : date) (d : db) :
  state_of (Database.check_upcoming_bookings now d) = d.
Proof. unfold Database.check_upcoming_bookings. run_database_scan. reflexivity. Qed.

Lemma database_scan_reminders (now : date) (d : db) :
  reminders (log_of (Database.check_upcoming_bookings now d))
  = database_due_reminders now d.
Proof.
  unfold Database.check_upcoming_bookings, database_due_reminders.
  run_database_scan. cbn [reminders app].
  f_equal; [|f_equal];
    apply for_each_reminders;
    intros; first [apply print_then_send_state | apply print_then_send_reminders].
Qed.

Lemma app_scan_failed_sends (now : date) (d : db) :
  failed_sends (log_of (App.check_upcoming_bookings now d))
  = List.length (app_due_reminders now d).
Proof.
  unfold App.check_upcoming_bookings, app_due_reminders. run_scan.
  cbn [failed_sends Nat.add].
  rewrite !length_app, !length_map.
  f_equal; [|f_equal];
    apply for_each_failed_sends;
    auto using send_system_message_state, send_system_message_failed.
Qed.

(** The job of the scheduler: the scan, then the line that reports that it
    went through; or, where the scan raises, the line that reports the
    error. *)
Lemma schedule_notifications_run (now : date) (d : db) :
  state_of (App.schedule_notifications now d) = d
  /\ log_of (App.schedule_notifications now d)
     = if next_day_in_range now
       then (log_of (App.check_upcoming_bookings now d)
             ++ [Stdout "Notifications sent successfully."])%list
       else [Stdout "Error while running check_upcoming_bookings: date value out of range"].
Proof.
  unfold App.schedule_notifications, App.upcoming_date.
  destruct (next_day_in_range now); [|split; reflexivity].
  rewrite state_of_and_then, log_of_and_then, app_scan_state. split; reflexivity.
Qed.

Lemma scheduler_state (ticks : list date) (d : db) :
  state_of (App.scheduler ticks d) = d.
Proof.
  apply for_each_state. intros now d'. apply schedule_notifications_run.
Qed.

Lemma scheduler_reminders (ticks : list date) (d : db) :
  reminders (log_of (App.scheduler ticks d))
  = flat_map (fun now => if next_day_in_range now
                         then app_due_reminders now d else []) ticks.
Proof.
  unfold App.scheduler.
  induction ticks as [|now ticks IH]; cbn [for_each flat_map]; [reflexivity|].
  rewrite log_of_and_then, reminders_app.
  destruct (schedule_notifications_run now d) as [Hst Hlog].
  rewrite Hst, Hlog, IH. f_equal.
  destruct (next_day_in_range now); [|reflexivity].
  rewrite reminders_app, app_scan_reminders.
  cbn [reminders]. rewrite app_nil_r. reflexivity.
Qed.

(* ================================================================== *)
(** ** C4: the system message *)

(** C4 (the code departs from it).  A call of send_system_message for an
    existing receiver should store one message with no sender and the
    system flag set.  The insert names NULL for messages.sender_id, which
    init_db declares NOT NULL: the store rejects the row, the function
    prints the error and returns, and the messages table is as before.  This
    holds for every store, receiver and text; the second part evaluates the
    call for user 1 of [store1]. *)
Theorem C4_system_message_is_rejected :
  (forall d receiver text,
     messages (state_of (send_system_message receiver text d)) = messages d)
  /\ get_user_by_id store1 1 = Some (mkuser 1 "A")
  /\ send_system_message (Some 1) "Reminder" store1
     = (tt, store1,
        [SendingSystemMessage (Some 1) "Reminder";
         ErrorSendingMessage
           (IntegrityError "NOT NULL constraint failed: messages.sender_id")]).
Proof.
  split; [|split; reflexivity].
  intros d receiver text. rewrite send_system_message_state. reflexivity.
Qed.

(* ================================================================== *)
(** ** C1: one reminder for a booking and a date *)

(** The scan keeps no record of what it asked for: a scan run on the store
    an earlier scan left asks send_system_message for the same reminders
    again. *)
Lemma scan_asks_again (now : date) (d : db) :
  reminders (log_of (App.check_upcoming_bookings now
                       (state_of (App.check_upcoming_bookings now d))))
  = reminders (log_of (App.check_upcoming_bookings now d)).
Proof. rewrite app_scan_state. reflexivity. Qed.



(* ================================================================== *)
(** ** C6: a send that fails does not stop the scan *)

(** C6.  On a day whose next day datetime holds (any day before
    9999-12-31), in one run of the scheduler's job every due booking of every
    kind is handed to send_system_message, each of the sends fails on its
    own (the error is caught inside send_system_message and printed), and
    the job still reaches its last line, which reports that the scan went
    through: no error leaves the scan. *)
Theorem C6_scan_passes_over_failed_sends (now : date) (d : db) :
  next_day_in_range now = true ->
  let run := App.schedule_notifications now d in
  reminders (log_of run) = app_due_reminders now d
  /\ failed_sends (log_of run) = List.length (app_due_reminders now d)
  /\ List.last (log_of run) (Stdout EmptyString)
     = Stdout "Notifications sent successfully.".
Proof.
  intros Hrange. cbv zeta.
  destruct (schedule_notifications_run now d) as [_ Hlog].
  rewrite Hlog, Hrange, reminders_app, failed_sends_app, app_scan_reminders,
    app_scan_failed_sends, last_last.
  cbn [reminders failed_sends]. rewrite app_nil_r, Nat.add_0_r. auto.
Qed.

Lemma C6_scan_passes_over_failed_sends_witness :
  next_day_in_range nov9 = true
  /\ reminders (log_of (App.schedule_notifications nov9 store2))
     = [(Some 1, "Reminder: Your resource booking 'Ladder' is scheduled for tomorrow.");
        (Some 2, "Reminder: Your space booking 'Hall' is scheduled for tomorrow.");
        (Some 1, "Reminder: Your event 'Cleanup' is scheduled for tomorrow.")]
  /\ failed_sends (log_of (App.schedule_notifications nov9 store2)) = 3%nat
  /\ List.last (log_of (App.schedule_notifications nov9 store2)) (Stdout EmptyString)
     = Stdout "Notifications sent successfully.".
Proof.
  split; [reflexivity|].
  exact (C6_scan_passes_over_failed_sends nov9 store2 eq_refl).
Defined.

(* ================================================================== *)
(** ** Booking rows: insert, duplicate check, delete *)

Lemma already_booked_true (rows : list booking) (uid eid : Z) :
  App.already_booked rows uid eid = true
  <-> In (uid, eid) (map (fun b => (user_id b, entity_id b)) rows).
Proof.
  unfold App.already_booked. rewrite existsb_exists, in_map_iff.
  split.
  - intros [b [Hin Hb]]. apply andb_true_iff in Hb as [Hu He].
    apply Z.eqb_eq in Hu, He. exists b. subst. auto.
  - intros [b [Hb Hin]]. inversion Hb; subst. exists b.
    rewrite !Z.eqb_refl. auto.
Qed.

Lemma already_booked_snoc (rows : list booking) (rowid uid eid : Z) (bd : string) :
  App.already_booked (rows ++ [mkbooking rowid uid eid bd])%list uid eid = true.
Proof.
  apply already_booked_true. rewrite map_app, in_app_iff. right. simpl. auto.
Qed.

Lemma unique_bookings_snoc (rows : list booking) (rowid uid eid : Z) (bd : string) :
  unique_bookings rows ->
  App.already_booked rows uid eid = false ->
  unique_bookings (rows ++ [mkbooking rowid uid eid bd])%list.
Proof.
  unfold unique_bookings. intros Hu Hno. rewrite map_app. simpl.
  apply NoDup_app; [exact Hu | repeat constructor; simpl; tauto |].
  intros p Hp [Hq|[]]. subst p.
  apply already_booked_true in Hp. congruence.
Qed.


(** The insert of a booking whose three values are there is accepted when
    the numbers can be bound and the table has a rowid left. *)
Lemma insert_booking_run (table kind_id : string) (rows : list booking)
    (seq uid eid : Z) (bd : string) :
  sqlite_integer uid = true -> sqlite_integer eid = true ->
  insert_booking table kind_id rows seq (Some uid) (Some eid) (Some bd)
  = match next_rowid seq (map booking_id rows) with
    | Ok rowid => Ok ((rows ++ [mkbooking rowid uid eid bd])%list, rowid)
    | Raise e => Raise e
    end.
Proof.
  intros Hu He. unfold insert_booking, bind_integer. rewrite Hu, He. cbn [bind].
  destruct (next_rowid seq (map booking_id rows)); reflexivity.
Qed.

Lemma largest_rowid_above (seq : Z) (ids : list Z) :
  0 <= largest_rowid seq ids /\ Forall (fun i => i <= largest_rowid seq ids) ids.
Proof.
  unfold largest_rowid. split.
  - induction ids as [|i ids IH]; simpl; lia.
  - induction ids as [|i ids IH]; simpl; constructor.
    + lia.
    + eapply Forall_impl; [|exact IH]. simpl. intros. lia.
Qed.

Lemma next_rowid_ok (seq : Z) (ids : list Z) (n : Z) :
  next_rowid seq ids = Ok n ->
  n = largest_rowid seq ids + 1 /\ 0 < n <= MAX_ROWID.
Proof.
  unfold next_rowid. pose proof (largest_rowid_above seq ids) as [Hpos _].
  destruct (largest_rowid seq ids <? MAX_ROWID) eqn:Hlt; [|discriminate].
  intros Hn. injection Hn as <-. apply Z.ltb_lt in Hlt. lia.
Qed.

Lemma next_rowid_above (seq : Z) (ids : list Z) (n : Z) :
  next_rowid seq ids = Ok n -> Forall (fun i => i < n) ids.
Proof.
  intros Hn. apply next_rowid_ok in Hn as [-> _].
  pose proof (largest_rowid_above seq ids) as [_ Hall].
  eapply Forall_impl; [|exact Hall]. simpl. intros. lia.
Qed.

Lemma next_rowid_sqlite_integer (seq : Z) (ids : list Z) (n : Z) :
  next_rowid seq ids = Ok n -> sqlite_integer n = true.
Proof.
  intros Hn. apply next_rowid_ok in Hn as [_ Hn]. unfold MAX_ROWID in Hn.
  unfold sqlite_integer. apply andb_true_iff. split; apply Z.leb_le; lia.
Qed.

(** What a booking route does: it leaves the store as it is and does not
    report success, or it appends one row, with the next rowid of its table,
    and reports success. *)
Lemma book_resource_route_cases (s : option Z) (now : date) (eid : Z) (d : db) :
  let r := App.book_resource_route s now eid d in
  (fst r = d /\ App.flashed (snd r) <> ("Resource booked successfully!", "success"))
  \/ exists uid rowid,
       App.logged_in s = Some uid
       /\ get_resource_by_id d eid <> None
       /\ sqlite_integer uid = true /\ sqlite_integer eid = true
       /\ App.already_booked (resource_bookings d) uid eid = false
       /\ next_rowid (seq_resource_bookings d) (map booking_id (resource_bookings d))
          = Ok rowid
       /\ r = (with_resource_bookings d
                 (resource_bookings d ++ [mkbooking rowid uid eid (strftime_Ymd now)])%list
                 rowid,
               App.mkresponse ("Resource booked successfully!", "success")
                              (App.view_resource eid)).
Proof.
  unfold App.book_resource_route.
  destruct (App.logged_in s) as [uid|] eqn:Hlog;
    [|left; split; [reflexivity|discriminate]].
  destruct (get_resource_by_id d eid) as [x|] eqn:Hget;
    [|left; split; [reflexivity|discriminate]].
  destruct (sqlite_integer uid) eqn:Hu;
    [|left; split; [reflexivity|discriminate]].
  destruct (sqlite_integer eid) eqn:He;
    [|left; split; [reflexivity|discriminate]].
  cbn [negb andb].
  destruct (App.already_booked (resource_bookings d) uid eid) eqn:Hb;
    [left; split; [reflexivity|discriminate]|].
  unfold book_resource. rewrite (insert_booking_run _ _ _ _ _ _ _ Hu He).
  destruct (next_rowid _ _) as [rowid|err] eqn:Hn; cbn [bind reraise fst snd].
  - right. exists uid, rowid. repeat split; try reflexivity; try assumption.
    discriminate.
  - left. destruct err; split; first [reflexivity|discriminate].
Qed.

Lemma book_space_route_cases (s : option Z) (now : date) (eid : Z) (d : db) :
  let r := App.book_space_route s now eid d in
  (fst r = d /\ App.flashed (snd r) <> ("Space booked successfully!", "success"))
  \/ exists uid rowid,
       App.logged_in s = Some uid
       /\ get_space_by_id d eid <> None
       /\ sqlite_integer uid = true /\ sqlite_integer eid = true
       /\ App.already_booked (space_bookings d) uid eid = false
       /\ next_rowid (seq_space_bookings d) (map booking_id (space_bookings d))
          = Ok rowid
       /\ r = (with_space_bookings d
                 (space_bookings d ++ [mkbooking rowid uid eid (strftime_Ymd now)])%list
                 rowid,
               App.mkresponse ("Space booked successfully!", "success")
                              (App.view_space eid)).
Proof.
  unfold App.book_space_route.
  destruct (App.logged_in s) as [uid|] eqn:Hlog;
    [|left; split; [reflexivity|discriminate]].
  destruct (get_space_by_id d eid) as [x|] eqn:Hget;
    [|left; split; [reflexivity|discriminate]].
  destruct (sqlite_integer uid) eqn:Hu;
    [|left; split; [reflexivity|discriminate]].
  destruct (sqlite_integer eid) eqn:He;
    [|left; split; [reflexivity|discriminate]].
  cbn [negb andb].
  destruct (App.already_booked (space_bookings d) uid eid) eqn:Hb;
    [left; split; [reflexivity|discriminate]|].
  unfold book_space. rewrite (insert_booking_run _ _ _ _ _ _ _ Hu He).
  destruct (next_rowid _ _) as [rowid|err] eqn:Hn; cbn [bind reraise fst snd].
  - right. exists uid, rowid. repeat split; try reflexivity; try assumption.
    discriminate.
  - left. destruct err; split; first [reflexivity|discriminate].
Qed.

Lemma book_event_route_cases (s : option Z) (now : date) (eid : Z) (d : db) :
  let r := App.book_event_route s now eid d in
  (fst r = d /\ App.flashed (snd r) <> ("Event booked successfully!", "success"))
  \/ exists uid rowid,
       App.logged_in s = Some uid
       /\ get_event_by_id d eid <> None
       /\ sqlite_integer uid = true /\ sqlite_integer eid = true
       /\ App.already_booked (event_bookings d) uid eid = false
       /\ next_rowid (seq_event_bookings d) (map booking_id (event_bookings d))
          = Ok rowid
       /\ r = (with_event_bookings d
                 (event_bookings d ++ [mkbooking rowid uid eid (strftime_Ymd now)])%list
                 rowid,
               App.mkresponse ("Event booked successfully!", "success")
                              (App.view_event eid)).
Proof.
  unfold App.book_event_route.
  destruct (App.logged_in s) as [uid|] eqn:Hlog;
    [|left; split; [reflexivity|discriminate]].
  destruct (get_event_by_id d eid) as [x|] eqn:Hget;
    [|left; split; [reflexivity|discriminate]].
  destruct (sqlite_integer uid) eqn:Hu;
    [|left; split; [reflexivity|discriminate]].
  destruct (sqlite_integer eid) eqn:He;
    [|left; split; [reflexivity|discriminate]].
  cbn [negb andb].
  destruct (App.already_booked (event_bookings d) uid eid) eqn:Hb;
    [left; split; [reflexivity|discriminate]|].
  unfold book_event. rewrite (insert_booking_run _ _ _ _ _ _ _ Hu He).
  destruct (next_rowid _ _) as [rowid|err] eqn:Hn; cbn [bind reraise fst snd].
  - right. exists uid, rowid. repeat split; try reflexivity; try assumption.
    discriminate.
  - left. destruct err; split; first [reflexivity|discriminate].
Qed.

(* ================================================================== *)
(** ** C10: the date a route stores *)

(** C10.  Whatever the session, the clock, the entity and the store, a
    booking route either leaves its booking table as it is or adds one row
    at its end, and the booking_date of that row is the day of the call,
    [strftime_Ymd now]: the routes take no date from the caller and do not
    read the entity's availability or date. *)
Theorem C10_route_stores_the_day_of_the_call
    (session_user_id : option Z) (now : date) (eid : Z) (d : db) :
  (let d' := fst (App.book_resource_route session_user_id now eid d) in
   resource_bookings d' = resource_bookings d
   \/ exists rowid uid,
        resource_bookings d'
        = (resource_bookings d ++ [mkbooking rowid uid eid (strftime_Ymd now)])%list)
  /\ (let d' := fst (App.book_space_route session_user_id now eid d) in
      space_bookings d' = space_bookings d
      \/ exists rowid uid,
           space_bookings d'
           = (space_bookings d ++ [mkbooking rowid uid eid (strftime_Ymd now)])%list)
  /\ (let d' := fst (App.book_event_route session_user_id now eid d) in
      event_bookings d' = event_bookings d
      \/ exists rowid uid,
           event_bookings d'
           = (event_bookings d ++ [mkbooking rowid uid eid (strftime_Ymd now)])%list).
Proof.
  cbv zeta. repeat split.
  - destruct (book_resource_route_cases session_user_id now eid d)
      as [[-> _]|(uid & rowid & _ & _ & _ & _ & _ & _ & ->)]; [auto|].
    right. exists rowid, uid. reflexivity.
  - destruct (book_space_route_cases session_user_id now eid d)
      as [[-> _]|(uid & rowid & _ & _ & _ & _ & _ & _ & ->)]; [auto|].
    right. exists rowid, uid. reflexivity.
  - destruct (book_event_route_cases session_user_id now eid d)
      as [[-> _]|(uid & rowid & _ & _ & _ & _ & _ & _ & ->)]; [auto|].
    right. exists rowid, uid. reflexivity.
Qed.

(* ================================================================== *)
(** ** C2: one booking for a user and an entity *)

(** C2, refuted as stated.  On a store without bookings, book_resource
    called twice for user 1 and resource 7 is accepted twice: the table
    then holds two rows for the pair.  The insert checks nothing but the
    NOT NULL columns. *)
Lemma C2_store_insert_accepts_a_duplicate :
  let empty := with_resource_bookings store1 [] 0 in
  exists d2,
    (d1 <- book_resource empty (Some 1) (Some 7) (Some "2024-11-09") ;;
     book_resource d1 (Some 1) (Some 7) (Some "2024-11-09")) = Ok d2
    /\ resource_bookings d2
       = [mkbooking 1 1 7 "2024-11-09"; mkbooking 2 1 7 "2024-11-09"]
    /\ ~ unique_bookings (resource_bookings d2).
Proof.
  cbv zeta. eexists. split; [reflexivity|]. split; [reflexivity|].
  unfold unique_bookings. simpl. intros H. inversion H as [|? ? Hnot _]; subst.
  apply Hnot. simpl. auto.
Qed.

Section RoutesKeepUnique.

Variables (session_user_id : option Z) (now : date) (eid : Z) (d : db).

Lemma book_resource_route_unique :
  unique_bookings (resource_bookings d) ->
  unique_bookings
    (resource_bookings (fst (App.book_resource_route session_user_id now eid d))).
Proof.
  intros Hu.
  destruct (book_resource_route_cases session_user_id now eid d)
    as [[-> _]|(uid & rowid & _ & _ & _ & _ & Hb & _ & ->)]; [exact Hu|].
  cbn [fst resource_bookings with_resource_bookings].
  apply unique_bookings_snoc; assumption.
Qed.

Lemma book_space_route_unique :
  unique_bookings (space_bookings d) ->
  unique_bookings
    (space_bookings (fst (App.book_space_route session_user_id now eid d))).
Proof.
  intros Hu.
  destruct (book_space_route_cases session_user_id now eid d)
    as [[-> _]|(uid & rowid & _ & _ & _ & _ & Hb & _ & ->)]; [exact Hu|].
  cbn [fst space_bookings with_space_bookings].
  apply unique_bookings_snoc; assumption.
Qed.

Lemma book_event_route_unique :
  unique_bookings (event_bookings d) ->
  unique_bookings
    (event_bookings (fst (App.book_event_route session_user_id now eid d))).
Proof.
  intros Hu.
  destruct (book_event_route_cases session_user_id now eid d)
    as [[-> _]|(uid & rowid & _ & _ & _ & _ & Hb & _ & ->)]; [exact Hu|].
  cbn [fst event_bookings with_event_bookings].
  apply unique_bookings_snoc; assumption.
Qed.

(** After a booking that went through, the same request is answered
    "already booked" and changes nothing. *)
Lemma book_resource_route_again (now' : date) :
  let first := App.book_resource_route session_user_id now eid d in
  App.flashed (snd first) = ("Resource booked successfully!", "success") ->
  App.book_resource_route session_user_id now' eid (fst first)
  = (fst first,
     App.mkresponse ("You have already booked this resource.", "info")
                    (App.view_resource eid)).
Proof.
  cbv zeta.
  destruct (book_resource_route_cases session_user_id now eid d)
    as [[_ Hno]|(uid & rowid & Hlog & Hget & Hu & He & _ & _ & ->)];
    [intros Hyes; contradiction|].
  intros _. cbn [fst]. unfold App.book_resource_route. rewrite Hlog.
  change (get_resource_by_id (with_resource_bookings d ?[rows] ?[seq]) eid)
    with (get_resource_by_id d eid).
  destruct (get_resource_by_id d eid); [|contradiction].
  rewrite Hu, He. cbn [negb andb resource_bookings with_resource_bookings].
  rewrite already_booked_snoc. reflexivity.
Qed.

Lemma book_space_route_again (now' : date) :
  let first := App.book_space_route session_user_id now eid d in
  App.flashed (snd first) = ("Space booked successfully!", "success") ->
  App.book_space_route session_user_id now' eid (fst first)
  = (fst first,
     App.mkresponse ("You have already booked this space.", "info")
                    (App.view_space eid)).
Proof.
  cbv zeta.
  destruct (book_space_route_cases session_user_id now eid d)
    as [[_ Hno]|(uid & rowid & Hlog & Hget & Hu & He & _ & _ & ->)];
    [intros Hyes; contradiction|].
  intros _. cbn [fst]. unfold App.book_space_route. rewrite Hlog.
  change (get_space_by_id (with_space_bookings d ?[rows] ?[seq]) eid)
    with (get_space_by_id d eid).
  destruct (get_space_by_id d eid); [|contradiction].
  rewrite Hu, He. cbn [negb andb space_bookings with_space_bookings].
  rewrite already_booked_snoc. reflexivity.
Qed.

Lemma book_event_route_again (now' : date) :
  let first := App.book_event_route session_user_id now eid d in
  App.flashed (snd first) = ("Event booked successfully!", "success") ->
  App.book_event_route session_user_id now' eid (fst first)
  = (fst first,
     App.mkresponse ("You have already booked this event.", "info")
                    (App.view_event eid)).
Proof.
  cbv zeta.
  destruct (book_event_route_cases session_user_id now eid d)
    as [[_ Hno]|(uid & rowid & Hlog & Hget & Hu & He & _ & _ & ->)];
    [intros Hyes; contradiction|].
  intros _. cbn [fst]. unfold App.book_event_route. rewrite Hlog.
  change (get_event_by_id (with_event_bookings d ?[rows] ?[seq]) eid)
    with (get_event_by_id d eid).
  destruct (get_event_by_id d eid); [|contradiction].
  rewrite Hu, He. cbn [negb andb event_bookings with_event_bookings].
  rewrite already_booked_snoc. reflexivity.
Qed.

End RoutesKeepUnique.

(* ================================================================== *)
(** ** C5: cancelling a booking *)




(* ================================================================== *)
(** ** Joins, and tables in rowid order *)

Section Join.

Context {E : Type} (key : E -> Z).

Lemma join_In (bs : list booking) (es : list E) (b : booking) (e : E) :
  In (b, e) (join key bs es) <-> In b bs /\ In e es /\ entity_id b = key e.
Proof.
  unfold join. rewrite in_flat_map. split.
  - intros [b' [Hb Hin]]. apply in_map_iff in Hin as [e' [Heq He]].
    inversion Heq; subst. apply filter_In in He as [He Hk].
    apply Z.eqb_eq in Hk. auto.
  - intros [Hb [He Hk]]. exists b. split; [exact Hb|].
    apply in_map. apply filter_In. split; [exact He|].
    apply Z.eqb_eq. exact Hk.
Qed.

(** A key that is unique in the table is found in at most one row. *)
Lemma lookup_by_unique_key (es : list E) (k : Z) :
  NoDup (map key es) ->
  filter (fun e => k =? key e) es = []
  \/ exists e, filter (fun e => k =? key e) es = [e].
Proof.
  induction es as [|e es IH]; simpl; intros Hnd; [auto|].
  inversion Hnd as [|? ? Hnotin Hnd']; subst.
  destruct (k =? key e) eqn:Hk.
  - right. exists e. f_equal.
    apply Z.eqb_eq in Hk.
    destruct (filter (fun e0 => k =? key e0) es) as [|e' l] eqn:Hf; [reflexivity|].
    exfalso. apply Hnotin.
    assert (Hin : In e' (filter (fun e0 => k =? key e0) es))
      by (rewrite Hf; left; reflexivity).
    apply filter_In in Hin as [Hin Hk']. apply Z.eqb_eq in Hk'.
    rewrite <- Hk, Hk'. apply in_map. exact Hin.
  - apply IH. exact Hnd'.
Qed.

Lemma join_filter_fst_In (P : booking * E -> bool) (bs : list booking)
    (es : list E) (x : booking * E) :
  In x (filter P (join key bs es)) -> In (fst x) bs.
Proof.
  intros Hin. apply filter_In in Hin as [Hin _]. destruct x as [b e].
  apply join_In in Hin. tauto.
Qed.

(** The rows of a join come in the order of the booking table, each
    booking at most once when the entity key is unique. *)
Lemma join_rowid_ordered (P : booking * E -> bool) (bs : list booking)
    (es : list E) :
  NoDup (map key es) ->
  rowid_ordered (map booking_id bs) ->
  rowid_ordered (map (fun x => booking_id (fst x)) (filter P (join key bs es))).
Proof.
  unfold rowid_ordered. intros Hnd.
  induction bs as [|b bs IH]; intros Hs; [constructor|].
  simpl in Hs. inversion Hs as [|? ? Hs' Hall]; subst.
  specialize (IH Hs').
  assert (Hrest : Forall (Z.lt (booking_id b))
            (map (fun x => booking_id (fst x)) (filter P (join key bs es)))).
  { apply Forall_forall. intros i Hi. apply in_map_iff in Hi as [x [Hx Hin]].
    subst i. apply join_filter_fst_In in Hin.
    rewrite Forall_forall in Hall. apply Hall. apply in_map. exact Hin. }
  change (join key (b :: bs) es)
    with ((map (pair b) (filter (fun e => entity_id b =? key e) es))
          ++ join key bs es)%list.
  rewrite filter_app, map_app.
  destruct (lookup_by_unique_key es (entity_id b) Hnd) as [Hf|[e Hf]];
    rewrite Hf; simpl.
  - exact IH.
  - destruct (P (b, e)); simpl; [constructor; assumption | exact IH].
Qed.

End Join.

(** AUTOINCREMENT keeps a table in rowid order: the new row goes last and
    its rowid is above all others. *)
Lemma rowid_ordered_insert (seq : Z) (rows : list booking) (n u e : Z) (bd : string) :
  next_rowid seq (map booking_id rows) = Ok n ->
  rowid_ordered (map booking_id rows) ->
  rowid_ordered (map booking_id (rows ++ [mkbooking n u e bd])%list).
Proof.
  unfold rowid_ordered. rewrite map_app. simpl. intros Hnext.
  generalize (next_rowid_above seq (map booking_id rows) n Hnext). clear Hnext.
  generalize (map booking_id rows) as ids.
  induction ids as [|i ids IH]; simpl; intros Hn Hs.
  - repeat constructor.
  - inversion Hn; subst. inversion Hs; subst.
    constructor; [apply IH; assumption|].
    apply Forall_app. split; [assumption|]. repeat constructor. assumption.
Qed.

Lemma rowid_ordered_delete (rows : list booking) (bid uid : Z) :
  rowid_ordered (map booking_id rows) ->
  rowid_ordered (map booking_id (App.delete_booking rows bid uid)).
Proof.
  unfold rowid_ordered, App.delete_booking.
  induction rows as [|b rows IH]; simpl; intros Hs; [constructor|].
  inversion Hs as [|? ? Hs' Hall]; subst.
  destruct (negb ((booking_id b =? bid) && (user_id b =? uid))); simpl; [|auto].
  constructor; [auto|].
  apply Forall_forall. intros i Hi. apply in_map_iff in Hi as [x [Hx Hin]].
  subst i. apply filter_In in Hin as [Hin _].
  rewrite Forall_forall in Hall. apply Hall, in_map, Hin.
Qed.

Lemma init_db_well_formed : well_formed init_db.
Proof. split; simpl; constructor. Qed.

(* ================================================================== *)
(** ** Every store the application gets to is well formed and holds at
       most one booking per user and entity *)

Lemma NoDup_map_filter {A B : Type} (f : A -> B) (P : A -> bool) (l : list A) :
  NoDup (map f l) -> NoDup (map f (filter P l)).
Proof.
  induction l as [|a l IH]; simpl; intros Hnd; [constructor|].
  inversion Hnd as [|? ? Hnotin Hnd']; subst.
  destruct (P a); simpl; [|auto].
  constructor; [|auto].
  intros Hin. apply Hnotin. apply in_map_iff in Hin as [x [Hx Hin]].
  apply filter_In in Hin as [Hin _]. rewrite <- Hx. apply in_map. exact Hin.
Qed.

Lemma NoDup_insert_key (seq : Z) (ids : list Z) (n : Z) :
  next_rowid seq ids = Ok n -> NoDup ids -> NoDup (ids ++ [n])%list.
Proof.
  intros Hnext Hnd.
  apply NoDup_app; [exact Hnd | repeat constructor; simpl; tauto |].
  intros i Hi [Hj|[]]. subst i.
  pose proof (next_rowid_above seq ids n Hnext) as Habove.
  rewrite Forall_forall in Habove. specialize (Habove _ Hi). lia.
Qed.

Lemma map_key_edit {E : Type} (key : E -> Z) (f : E -> E) (es : list E) :
  (forall e, key (f e) = key e) -> map key (map f es) = map key es.
Proof.
  intros Hkey. rewrite map_map. apply map_ext. exact Hkey.
Qed.

Lemma unique_bookings_delete (rows : list booking) (bid uid : Z) :
  unique_bookings rows -> unique_bookings (App.delete_booking rows bid uid).
Proof. apply NoDup_map_filter. Qed.

Ltac same_tables :=
  match goal with
  | H : well_formed _ |- well_formed _ =>
      destruct H; split; cbn; try assumption
  end.

Lemma create_resource_ok (d d' : db) (u : option Z) (t a : option string) :
  create_resource d u t a = Ok d' ->
  exists uid new_title rowid,
    next_rowid (seq_resources d) (map resource_id (resources d)) = Ok rowid
    /\ d' = with_resources d
              (resources d ++ [mkresource rowid uid new_title a])%list rowid.
Proof.
  unfold create_resource.
  destruct (bind_integer u); cbn [bind]; [|discriminate].
  destruct (next_rowid _ _) as [rowid|] eqn:Hn; cbn [bind]; [|discriminate].
  destruct u as [uid|]; cbn [not_null bind]; [|discriminate].
  destruct t as [new_title|]; cbn [not_null bind]; [|discriminate].
  intros H. injection H as <-. eauto.
Qed.

Lemma create_space_ok (d d' : db) (n a : option string) (c : option Z) :
  create_space d n a c = Ok d' ->
  exists new_name creator rowid,
    next_rowid (seq_spaces d) (map space_id (spaces d)) = Ok rowid
    /\ d' = with_spaces d (spaces d ++ [mkspace rowid new_name a creator])%list rowid.
Proof.
  unfold create_space.
  destruct (bind_integer c); cbn [bind]; [|discriminate].
  destruct (next_rowid _ _) as [rowid|] eqn:Hn; cbn [bind]; [|discriminate].
  destruct n as [new_name|]; cbn [not_null bind]; [|discriminate].
  destruct c as [creator|]; cbn [not_null bind]; [|discriminate].
  intros H. injection H as <-. eauto.
Qed.

Lemma create_event_ok (d d' : db) (n dt l : option string) (h : option Z) :
  create_event d n dt l h = Ok d' ->
  exists new_name new_date host rowid,
    next_rowid (seq_events d) (map event_id (events d)) = Ok rowid
    /\ d' = with_events d (events d ++ [mkevent rowid new_name new_date host])%list rowid.
Proof.
  unfold create_event.
  destruct (bind_integer h); cbn [bind]; [|discriminate].
  destruct (next_rowid _ _) as [rowid|] eqn:Hn; cbn [bind]; [|discriminate].
  destruct n as [new_name|]; cbn [not_null bind]; [|discriminate].
  destruct dt as [new_date|]; cbn [not_null bind]; [|discriminate].
  destruct l as [new_location|]; cbn [not_null bind]; [|discriminate].
  destruct h as [host|]; cbn [not_null bind]; [|discriminate].
  intros H. injection H as <-. eauto 6.
Qed.

Lemma step_store_invariant (d d' : db) :
  step d d' -> store_invariant d -> store_invariant d'.
Proof.
  intros Hstep (Hwf & Hur & Hus & Hue).
  destruct Hstep.
  - (* book_resource_route *)
    destruct (book_resource_route_cases s now eid d)
      as [[-> _]|(uid & rowid & _ & _ & _ & _ & Hb & Hn & ->)];
      [exact (conj Hwf (conj Hur (conj Hus Hue)))|].
    split; [|split; [|split]]; cbn [fst]; cbn; try assumption.
    + same_tables. apply (rowid_ordered_insert _ _ _ _ _ _ Hn). assumption.
    + apply unique_bookings_snoc; assumption.
  - (* book_space_route *)
    destruct (book_space_route_cases s now eid d)
      as [[-> _]|(uid & rowid & _ & _ & _ & _ & Hb & Hn & ->)];
      [exact (conj Hwf (conj Hur (conj Hus Hue)))|].
    split; [|split; [|split]]; cbn [fst]; cbn; try assumption.
    + same_tables. apply (rowid_ordered_insert _ _ _ _ _ _ Hn). assumption.
    + apply unique_bookings_snoc; assumption.
  - (* book_event_route *)
    destruct (book_event_route_cases s now eid d)
      as [[-> _]|(uid & rowid & _ & _ & _ & _ & Hb & Hn & ->)];
      [exact (conj Hwf (conj Hur (conj Hus Hue)))|].
    split; [|split; [|split]]; cbn [fst]; cbn; try assumption.
    + same_tables. apply (rowid_ordered_insert _ _ _ _ _ _ Hn). assumption.
    + apply unique_bookings_snoc; assumption.
  - (* unbook_resource *)
    unfold App.unbook_resource.
    destruct (App.logged_in s) as [uid|];
      [|exact (conj Hwf (conj Hur (conj Hus Hue)))].
    destruct (negb (sqlite_integer bid && sqlite_integer uid));
      [exact (conj Hwf (conj Hur (conj Hus Hue)))|].
    split; [|split; [|split]]; cbn; try assumption.
    + same_tables. apply rowid_ordered_delete. assumption.
    + apply unique_bookings_delete, Hur.
  - (* unbook_space *)
    unfold App.unbook_space.
    destruct (App.logged_in s) as [uid|];
      [|exact (conj Hwf (conj Hur (conj Hus Hue)))].
    destruct (negb (sqlite_integer bid && sqlite_integer uid));
      [exact (conj Hwf (conj Hur (conj Hus Hue)))|].
    split; [|split; [|split]]; cbn; try assumption.
    + same_tables. apply rowid_ordered_delete. assumption.
    + apply unique_bookings_delete, Hus.
  - (* unbook_event *)
    unfold App.unbook_event.
    destruct (App.logged_in s) as [uid|];
      [|exact (conj Hwf (conj Hur (conj Hus Hue)))].
    destruct (negb (sqlite_integer bid && sqlite_integer uid));
      [exact (conj Hwf (conj Hur (conj Hus Hue)))|].
    split; [|split; [|split]]; cbn; try assumption.
    + same_tables. apply rowid_ordered_delete. assumption.
    + apply unique_bookings_delete, Hue.
  - (* a tick of the scheduler *)
    destruct (schedule_notifications_run now d) as [Hst _]. rewrite Hst.
    exact (conj Hwf (conj Hur (conj Hus Hue))).
  - (* create_resource *)
    apply create_resource_ok in H as (uid & new_title & rowid & Hn & ->).
    split; [|split; [|split]]; cbn; try assumption.
    same_tables. rewrite map_app. apply (NoDup_insert_key _ _ _ Hn). assumption.
  - (* create_space *)
    apply create_space_ok in H as (new_name & creator & rowid & Hn & ->).
    split; [|split; [|split]]; cbn; try assumption.
    same_tables. rewrite map_app. apply (NoDup_insert_key _ _ _ Hn). assumption.
  - (* create_event *)
    apply create_event_ok in H as (new_name & new_date & host & rowid & Hn & ->).
    split; [|split; [|split]]; cbn; try assumption.
    same_tables. rewrite map_app. apply (NoDup_insert_key _ _ _ Hn). assumption.
  - (* update_resource *)
    split; [|split; [|split]]; cbn; try assumption.
    same_tables. rewrite map_key_edit; [assumption|].
    intros e. destruct (resource_id e =? rid); reflexivity.
  - (* update_space *)
    split; [|split; [|split]]; cbn; try assumption.
    same_tables. rewrite map_key_edit; [assumption|].
    intros e. destruct (space_id e =? sid); reflexivity.
  - (* update_event *)
    split; [|split; [|split]]; cbn; try assumption.
    same_tables. rewrite map_key_edit; [assumption|].
    intros e. destruct (event_id e =? eid); reflexivity.
  - (* delete_resource *)
    split; [|split; [|split]]; cbn; try assumption.
    same_tables. apply NoDup_map_filter. assumption.
  - (* delete_space *)
    split; [|split; [|split]]; cbn; try assumption.
    same_tables. apply NoDup_map_filter. assumption.
  - (* delete_event *)
    split; [|split; [|split]]; cbn; try assumption.
    same_tables. apply NoDup_map_filter. assumption.
Qed.

Lemma reachable_store_invariant (d : db) : reachable d -> store_invariant d.
Proof.
  induction 1 as [|d d' _ IH Hstep].
  - split; [exact init_db_well_formed|].
    repeat split; unfold unique_bookings; simpl; constructor.
  - exact (step_store_invariant d d' Hstep IH).
Qed.

(* ================================================================== *)
(** ** C2, amended *)

(** C2, amended.  The duplicate check is the routes': each booking route
    looks for a row of the user and the entity before it calls the store's
    insert.  In every store the application gets to from a new database
    (requests to the routes one at a time, ticks, catalog operations), each
    booking table holds at most one row per user and entity; and after a
    booking that went through, the same request (on any day) is answered
    "already booked" and leaves the store as it is.  The store's own insert
    functions check nothing of this. *)
Theorem C2_routes_keep_one_booking_per_user_and_entity
    (session_user_id : option Z) (now now' : date) (eid : Z) (d : db) :
  reachable d ->
  (unique_bookings (resource_bookings d)
   /\ unique_bookings (space_bookings d)
   /\ unique_bookings (event_bookings d))
  /\ (let first := App.book_resource_route session_user_id now eid d in
      App.flashed (snd first) = ("Resource booked successfully!", "success") ->
      App.book_resource_route session_user_id now' eid (fst first)
      = (fst first,
         App.mkresponse ("You have already booked this resource.", "info")
                        (App.view_resource eid)))
  /\ (let first := App.book_space_route session_user_id now eid d in
      App.flashed (snd first) = ("Space booked successfully!", "success") ->
      App.book_space_route session_user_id now' eid (fst first)
      = (fst first,
         App.mkresponse ("You have already booked this space.", "info")
                        (App.view_space eid)))
  /\ (let first := App.book_event_route session_user_id now eid d in
      App.flashed (snd first) = ("Event booked successfully!", "success") ->
      App.book_event_route session_user_id now' eid (fst first)
      = (fst first,
         App.mkresponse ("You have already booked this event.", "info")
                        (App.view_event eid))).
Proof.
  intros Hreach. split; [apply reachable_store_invariant, Hreach|].
  cbv zeta. split; [|split].
  - apply book_resource_route_again.
  - apply book_space_route_again.
  - apply book_event_route_again.
Qed.

Lemma listed_reachable : reachable listed.
Proof.
  apply (reachable_step init_db listed reachable_init).
  apply (step_create_resource (Some 2) (Some "Ladder") (Some "2024-12-25")).
  reflexivity.
Defined.

Lemma C2_routes_keep_one_booking_witness :
  reachable listed
  /\ App.flashed (snd (App.book_resource_route (Some 1) nov9 1 listed))
     = ("Resource booked successfully!", "success")
  /\ resource_bookings (fst (App.book_resource_route (Some 1) nov9 1 listed))
     = [mkbooking 1 1 1 "2024-11-09"]
  /\ App.book_resource_route (Some 1) (add_one_day nov9) 1
       (fst (App.book_resource_route (Some 1) nov9 1 listed))
     = (fst (App.book_resource_route (Some 1) nov9 1 listed),
        App.mkresponse ("You have already booked this resource.", "info")
                       (App.view_resource 1)).
Proof.
  split; [exact listed_reachable|]. split; [reflexivity|]. split; [reflexivity|].
  destruct (C2_routes_keep_one_booking_per_user_and_entity
              (Some 1) nov9 (add_one_day nov9) 1 listed listed_reachable)
    as [_ [Hagain _]].
  apply Hagain. reflexivity.
Defined.

(* ================================================================== *)
(** ** C8: the bookings of a user *)

Lemma bookings_by_user_spec {E : Type} (key : E -> Z) (name : E -> string)
    (bs : list booking) (es : list E) (uid : Z) :
  NoDup (map key es) ->
  rowid_ordered (map booking_id bs) ->
  let rows := map (fun x => (fst x, name (snd x)))
                  (filter (fun x => user_id (fst x) =? uid) (join key bs es)) in
  rowid_ordered (map (fun x => booking_id (fst x)) rows)
  /\ forall b t,
       In (b, t) rows
       <-> In b bs /\ user_id b = uid
           /\ exists e, In e es /\ entity_id b = key e /\ name e = t.
Proof.
  intros Hnd Hs rows. split.
  - unfold rows. rewrite map_map. cbn [fst].
    apply join_rowid_ordered; assumption.
  - intros b t. unfold rows. rewrite in_map_iff. split.
    + intros [[b' e] [Heq Hin]]. inversion Heq; subst.
      apply filter_In in Hin as [Hin Hu]. apply Z.eqb_eq in Hu.
      apply join_In in Hin as [Hb [He Hk]]. cbn in *. eauto 6.
    + intros [Hb [Hu [e [He [Hk Hn]]]]]. exists (b, e). cbn.
      split; [congruence|]. apply filter_In. split.
      * apply join_In. auto.
      * cbn. apply Z.eqb_eq. exact Hu.
Qed.

(** C8, refuted as stated.  In [store2] user 1 holds booking 1, of
    resource 7.  After user 2, who listed the resource, has deleted it
    through delete_resource_route, the booking is still a row of
    resource_bookings and still that of user 1, the store is well formed,
    and the listing of user 1 is empty: the inner join leaves out a booking
    whose entity is gone. *)
Lemma C8_booking_of_deleted_entity_is_not_listed :
  let d := fst (Site.delete_resource_route (Some 2) 7 store2) in
  well_formed d
  /\ In (mkbooking 1 1 7 "2024-11-10") (resource_bookings d)
  /\ user_id (mkbooking 1 1 7 "2024-11-10") = 1
  /\ get_resource_bookings_by_user d 1 = [].
Proof.
  cbv zeta. split; [|split; [left; reflexivity | split; reflexivity]].
  split; simpl; unfold rowid_ordered; simpl;
    repeat (constructor; simpl; try tauto; try lia).
Qed.

(** C8, amended.  On a store whose tables are in rowid order with unique
    keys, each of the three listings returns, for the given user, the
    user's bookings whose entity is in the catalog, each with the display
    name of that entity (title of the resource, name of the space, name of
    the event), in strictly ascending order of booking identifier. *)
Theorem C8_bookings_of_user_by_ascending_id (d : db) (uid : Z) :
  well_formed d ->
  (rowid_ordered (map (fun x => booking_id (fst x))
                      (get_resource_bookings_by_user d uid))
   /\ forall b t,
        In (b, t) (get_resource_bookings_by_user d uid)
        <-> In b (resource_bookings d) /\ user_id b = uid
            /\ exists r, In r (resources d) /\ entity_id b = resource_id r
                         /\ title r = t)
  /\ (rowid_ordered (map (fun x => booking_id (fst x))
                         (get_space_bookings_by_user d uid))
      /\ forall b t,
           In (b, t) (get_space_bookings_by_user d uid)
           <-> In b (space_bookings d) /\ user_id b = uid
               /\ exists s, In s (spaces d) /\ entity_id b = space_id s
                            /\ space_name s = t)
  /\ (rowid_ordered (map (fun x => booking_id (fst x))
                         (get_event_bookings_by_user d uid))
      /\ forall b t,
           In (b, t) (get_event_bookings_by_user d uid)
           <-> In b (event_bookings d) /\ user_id b = uid
               /\ exists e, In e (events d) /\ entity_id b = event_id e
                            /\ event_name e = t).
Proof.
  intros [Hr Hs He Hrb Hsb Heb].
  split; [|split].
  - apply (bookings_by_user_spec resource_id title); assumption.
  - apply (bookings_by_user_spec space_id space_name); assumption.
  - apply (bookings_by_user_spec event_id event_name); assumption.
Qed.

Lemma store2_well_formed : well_formed store2.
Proof.
  split; simpl; unfold rowid_ordered; simpl;
    repeat (constructor; simpl; try tauto; try lia).
Qed.

Lemma C8_bookings_of_user_witness :
  well_formed store2
  /\ get_resource_bookings_by_user store2 1 = [(mkbooking 1 1 7 "2024-11-10", "Ladder")]
  /\ rowid_ordered (map (fun x => booking_id (fst x))
                        (get_resource_bookings_by_user store2 1)).
Proof.
  split; [exact store2_well_formed|]. split; [reflexivity|].
  apply (C8_bookings_of_user_by_ascending_id store2 1 store2_well_formed).
Defined.

(* ================================================================== *)
(** ** Which bookings a scan reminds *)

(** The reminders of app.py's scan, row by row: a resource or space booking
    is reminded when the booking_date of its own row is the day after
    [now]; an event booking when the date the event has in the catalog is
    that day. *)
Lemma app_reminder_iff (now : date) (d : db) (receiver : option Z) (text : string) :
  In (receiver, text) (reminders (log_of (App.check_upcoming_bookings now d)))
  <-> (exists b r,
         In b (resource_bookings d) /\ In r (resources d)
         /\ entity_id b = resource_id r
         /\ booking_date b = strftime_Ymd (add_one_day now)
         /\ receiver = Some (user_id b)
         /\ text = App.resource_tomorrow_text (title r))
      \/ (exists b s,
            In b (space_bookings d) /\ In s (spaces d)
            /\ entity_id b = space_id s
            /\ booking_date b = strftime_Ymd (add_one_day now)
            /\ receiver = Some (user_id b)
            /\ text = App.space_tomorrow_text (space_name s))
      \/ (exists b e,
            In b (event_bookings d) /\ In e (events d)
            /\ entity_id b = event_id e
            /\ event_date e = strftime_Ymd (add_one_day now)
            /\ receiver = Some (user_id b)
            /\ text = App.event_tomorrow_text (event_name e)).
Proof.
  rewrite app_scan_reminders. unfold app_due_reminders.
  rewrite !in_app_iff, !in_map_iff.
  unfold App.upcoming_resource_bookings, App.upcoming_space_bookings,
    App.upcoming_event_bookings.
  split.
  - intros [H|[H|H]]; destruct H as [[b e] [Heq Hin]];
      apply filter_In in Hin as [Hin Hd]; apply String.eqb_eq in Hd;
      apply join_In in Hin as [Hb [He Hk]]; inversion Heq; subst; cbn in *;
      [left | right; left | right; right]; exists b, e; auto 7.
  - intros [H|[H|H]]; destruct H as [b [e [Hb [He [Hk [Hd [Hr Ht]]]]]]];
      [left | right; left | right; right]; exists (b, e);
      (split; [subst; reflexivity|]); apply filter_In;
      (split; [apply join_In; auto | cbn; apply String.eqb_eq; exact Hd]).
Qed.

(** The same for database.py's scan, where the day of [now] or any later
    text is enough, and the text of the reminder carries the date. *)
Lemma database_reminder_iff (now : date) (d : db) (receiver : option Z)
    (text : string) :
  In (receiver, text) (reminders (log_of (Database.check_upcoming_bookings now d)))
  <-> (exists b r,
         In b (resource_bookings d) /\ In r (resources d)
         /\ entity_id b = resource_id r
         /\ String.leb (strftime_Ymd now) (booking_date b) = true
         /\ receiver = Some (user_id b)
         /\ text = resource_reminder_text (title r) (booking_date b))
      \/ (exists b s,
            In b (space_bookings d) /\ In s (spaces d)
            /\ entity_id b = space_id s
            /\ String.leb (strftime_Ymd now) (booking_date b) = true
            /\ receiver = Some (user_id b)
            /\ text = space_reminder_text (space_name s) (booking_date b))
      \/ (exists b e,
            In b (event_bookings d) /\ In e (events d)
            /\ entity_id b = event_id e
            /\ String.leb (strftime_Ymd now) (event_date e) = true
            /\ receiver = Some (user_id b)
            /\ text = event_reminder_text (event_name e) (event_date e)).
Proof.
  rewrite database_scan_reminders. unfold database_due_reminders.
  rewrite !in_app_iff, !in_map_iff.
  unfold future_resource_bookings, future_space_bookings, future_event_bookings.
  split.
  - intros [H|[H|H]]; destruct H as [[b e] [Heq Hin]];
      apply filter_In in Hin as [Hin Hd];
      apply join_In in Hin as [Hb [He Hk]]; inversion Heq; subst; cbn in *;
      [left | right; left | right; right]; exists b, e; auto 7.
  - intros [H|[H|H]]; destruct H as [b [e [Hb [He [Hk [Hd [Hr Ht]]]]]]];
      [left | right; left | right; right]; exists (b, e);
      (split; [subst; reflexivity|]); apply filter_In;
      (split; [apply join_In; auto | cbn; exact Hd]).
Qed.

(** An edit of the entities that keeps their keys does not change which
    bookings a test on the booking row selects. *)
Lemma join_map_entities {E : Type} (key : E -> Z) (f : E -> E)
    (bs : list booking) (es : list E) :
  (forall e, key (f e) = key e) ->
  join key bs (map f es) = map (fun x => (fst x, f (snd x))) (join key bs es).
Proof.
  intros Hkey. unfold join.
  induction bs as [|b bs IH]; simpl; [reflexivity|].
  rewrite IH, map_app. f_equal.
  clear IH. induction es as [|e es IHes]; simpl; [reflexivity|].
  rewrite Hkey. destruct (entity_id b =? key e); simpl; rewrite IHes; reflexivity.
Qed.

Lemma due_receivers_after_edit {E : Type} (key : E -> Z) (f : E -> E)
    (P : booking -> bool) (bs : list booking) (es : list E) :
  (forall e, key (f e) = key e) ->
  map (fun x => Some (user_id (fst x)))
      (filter (fun x => P (fst x)) (join key bs (map f es)))
  = map (fun x => Some (user_id (fst x)))
        (filter (fun x => P (fst x)) (join key bs es)).
Proof.
  intros Hkey. rewrite (join_map_entities key f bs es Hkey).
  induction (join key bs es) as [|x l IH]; simpl; [reflexivity|].
  destruct (P (fst x)); simpl; rewrite IH; reflexivity.
Qed.

Lemma app_due_receivers (now : date) (d : db) :
  map fst (app_due_reminders now d)
  = (map (fun x => Some (user_id (fst x)))
         (App.upcoming_resource_bookings (strftime_Ymd (add_one_day now)) d)
     ++ map (fun x => Some (user_id (fst x)))
            (App.upcoming_space_bookings (strftime_Ymd (add_one_day now)) d)
     ++ map (fun x => Some (user_id (fst x)))
            (App.upcoming_event_bookings (strftime_Ymd (add_one_day now)) d))%list.
Proof.
  unfold app_due_reminders. rewrite !map_app, !map_map. reflexivity.
Qed.

(* ================================================================== *)
(** ** C3: the date that decides whether a booking is due *)

(** C3, refuted as stated.  In [store1] the resource is available on
    2024-12-25 and its booking is dated 2024-11-10.  By the availability
    field no resource booking is due on 2024-11-09 and one is due on
    2024-12-24; the scan reminds on 2024-11-09 and not on 2024-12-24.  In
    [store2], once the resource is edited to be available on 2024-11-10,
    both of its bookings have that governing date, and the scan of
    2024-11-09 still selects only the booking whose own row is dated
    2024-11-10. *)
Lemma C3_scan_reads_the_booking_row_not_the_availability :
  spec_due_resource_bookings nov9 store1 = []
  /\ reminders (log_of (App.check_upcoming_bookings nov9 store1))
     = [(Some 1, "Reminder: Your resource booking 'Ladder' is scheduled for tomorrow.")]
  /\ spec_due_resource_bookings (mkdate 2024 12 24) store1
     = [mkbooking 1 1 7 "2024-11-10"]
  /\ reminders (log_of (App.check_upcoming_bookings (mkdate 2024 12 24) store1)) = []
  /\ (let edited := update_resource store2 7 "Ladder" (Some "2024-11-10") in
      spec_due_resource_bookings nov9 edited
      = [mkbooking 1 1 7 "2024-11-10"; mkbooking 2 2 7 "2024-11-09"]
      /\ map fst (App.upcoming_resource_bookings
                    (strftime_Ymd (add_one_day nov9)) edited)
         = [mkbooking 1 1 7 "2024-11-10"]).
Proof. repeat split; reflexivity. Qed.

(** C3, amended.  For a resource or space booking the scan decides on the
    booking_date stored in the booking row: the booking is reminded when
    that date is the day after the scan, and an edit of the resource or
    space (update_resource, the UPDATE of edit_space) leaves the receivers
    the scan reminds as they were.  For an event booking the scan decides
    on the date the event has in the catalog at the time of the scan. *)
Theorem C3_due_by_booking_row_for_resources_and_spaces (now : date) (d : db) :
  (forall receiver text,
     In (receiver, text) (reminders (log_of (App.check_upcoming_bookings now d)))
     <-> (exists b r,
            In b (resource_bookings d) /\ In r (resources d)
            /\ entity_id b = resource_id r
            /\ booking_date b = strftime_Ymd (add_one_day now)
            /\ receiver = Some (user_id b)
            /\ text = App.resource_tomorrow_text (title r))
         \/ (exists b s,
               In b (space_bookings d) /\ In s (spaces d)
               /\ entity_id b = space_id s
               /\ booking_date b = strftime_Ymd (add_one_day now)
               /\ receiver = Some (user_id b)
               /\ text = App.space_tomorrow_text (space_name s))
         \/ (exists b e,
               In b (event_bookings d) /\ In e (events d)
               /\ entity_id b = event_id e
               /\ event_date e = strftime_Ymd (add_one_day now)
               /\ receiver = Some (user_id b)
               /\ text = App.event_tomorrow_text (event_name e)))
  /\ (forall rid new_title new_availability,
        map fst (reminders (log_of (App.check_upcoming_bookings now
                   (update_resource d rid new_title new_availability))))
        = map fst (reminders (log_of (App.check_upcoming_bookings now d))))
  /\ (forall sid new_name new_availability,
        map fst (reminders (log_of (App.check_upcoming_bookings now
                   (update_space d sid new_name new_availability))))
        = map fst (reminders (log_of (App.check_upcoming_bookings now d)))).
Proof.
  split; [intros; apply app_reminder_iff|].
  split; intros; rewrite !app_scan_reminders, !app_due_receivers.
  - f_equal.
    unfold App.upcoming_resource_bookings, update_resource. cbn.
    apply (due_receivers_after_edit resource_id _
             (fun b => String.eqb (booking_date b) (strftime_Ymd (add_one_day now)))).
    intros e. destruct (resource_id e =? rid); reflexivity.
  - f_equal. f_equal.
    unfold App.upcoming_space_bookings, update_space. cbn.
    apply (due_receivers_after_edit space_id _
             (fun b => String.eqb (booking_date b) (strftime_Ymd (add_one_day now)))).
    intros e. destruct (space_id e =? sid); reflexivity.
Qed.

(* ================================================================== *)
(** ** Pieces of a text *)

Lemma prefix_append (t s : string) : String.prefix t (t +++ s) = true.
Proof.
  induction t as [|a t IH]; simpl.
  - destruct s; reflexivity.
  - destruct (ascii_dec a a) as [_|Hne]; [exact IH | contradiction].
Qed.

Lemma contains_append_r (a s t : string) :
  contains s t = true -> contains (a +++ s) t = true.
Proof.
  intros H. induction a as [|c a IH]; simpl; [exact H|].
  rewrite IH. apply orb_true_r.
Qed.

Lemma contains_unfold (s t : string) :
  contains s t
  = String.prefix t s
    || match s with
       | EmptyString => false
       | String _ s' => contains s' t
       end.
Proof. destruct s; reflexivity. Qed.

Lemma contains_itself (t b : string) : contains (t +++ b) t = true.
Proof. rewrite contains_unfold, prefix_append. reflexivity. Qed.

Lemma contains_middle (a t b : string) : contains (a +++ t +++ b) t = true.
Proof. apply contains_append_r, contains_itself. Qed.

Lemma append_assoc (a b c : string) : (a +++ b) +++ c = a +++ b +++ c.
Proof. induction a as [|x a IH]; simpl; [reflexivity | rewrite IH; reflexivity]. Qed.

(* ================================================================== *)
(** ** C7: receiver and text of a reminder *)

(** C7, refuted as stated.  The booking of [store1] is dated 2024-11-10.
    The reminder the scan of 2024-11-09 asks for goes to the booking's user
    and names the resource, but its text does not hold the date: it says
    "tomorrow". *)
Lemma C7_reminder_text_does_not_state_the_date :
  exists text,
    reminders (log_of (App.check_upcoming_bookings nov9 store1)) = [(Some 1, text)]
    /\ contains text "Ladder" = true
    /\ contains text "2024-11-10" = false
    /\ text = "Reminder: Your resource booking 'Ladder' is scheduled for tomorrow.".
Proof. eexists. repeat split; reflexivity. Qed.

(** C7, amended.  Every reminder the scan of app.py asks for is addressed
    to the user of a booking row and its text holds the label of the booked
    entity (title of the resource, name of the space, name of the event) and
    ends in "is scheduled for tomorrow."; the date itself is not in the
    text.  The scan of database.py writes the date into the text: the
    booking_date of the row for a resource or space booking, the event's
    date for an event booking. *)
Theorem C7_reminder_names_the_entity (now : date) (d : db)
    (receiver : option Z) (text : string) :
  (In (receiver, text) (reminders (log_of (App.check_upcoming_bookings now d))) ->
   (exists b r,
      In b (resource_bookings d) /\ In r (resources d)
      /\ entity_id b = resource_id r /\ receiver = Some (user_id b)
      /\ text = App.resource_tomorrow_text (title r)
      /\ contains text (title r) = true)
   \/ (exists b s,
         In b (space_bookings d) /\ In s (spaces d)
         /\ entity_id b = space_id s /\ receiver = Some (user_id b)
         /\ text = App.space_tomorrow_text (space_name s)
         /\ contains text (space_name s) = true)
   \/ (exists b e,
         In b (event_bookings d) /\ In e (events d)
         /\ entity_id b = event_id e /\ receiver = Some (user_id b)
         /\ text = App.event_tomorrow_text (event_name e)
         /\ contains text (event_name e) = true))
  /\ (In (receiver, text)
         (reminders (log_of (Database.check_upcoming_bookings now d))) ->
      (exists b r,
         In b (resource_bookings d) /\ In r (resources d)
         /\ entity_id b = resource_id r /\ receiver = Some (user_id b)
         /\ contains text (title r) = true
         /\ contains text (booking_date b) = true)
      \/ (exists b s,
            In b (space_bookings d) /\ In s (spaces d)
            /\ entity_id b = space_id s /\ receiver = Some (user_id b)
            /\ contains text (space_name s) = true
            /\ contains text (booking_date b) = true)
      \/ (exists b e,
            In b (event_bookings d) /\ In e (events d)
            /\ entity_id b = event_id e /\ receiver = Some (user_id b)
            /\ contains text (event_name e) = true
            /\ contains text (event_date e) = true)).
Proof.
  split; intros Hin.
  - apply app_reminder_iff in Hin.
    destruct Hin as [H|[H|H]];
      destruct H as [b [e [Hb [He [Hk [_ [Hr Ht]]]]]]];
      [left | right; left | right; right]; exists b, e;
      repeat (split; [assumption|]); subst text; apply contains_middle.
  - apply database_reminder_iff in Hin.
    destruct Hin as [H|[H|H]];
      destruct H as [b [e [Hb [He [Hk [_ [Hr Ht]]]]]]];
      [left | right; left | right; right]; exists b, e;
      repeat (split; [assumption|]); subst text;
      (split; [apply contains_middle|]);
      unfold resource_reminder_text, space_reminder_text, event_reminder_text;
      rewrite <- !append_assoc; rewrite append_assoc; apply contains_middle.
Qed.

Lemma C7_reminder_names_the_entity_witness :
  In (Some 1, "Reminder: Your resource booking 'Ladder' is scheduled for tomorrow.")
     (reminders (log_of (App.check_upcoming_bookings nov9 store1)))
  /\ ((exists b r,
         In b (resource_bookings store1) /\ In r (resources store1)
         /\ entity_id b = resource_id r /\ Some 1 = Some (user_id b)
         /\ "Reminder: Your resource booking 'Ladder' is scheduled for tomorrow."
            = App.resource_tomorrow_text (title r)
         /\ contains "Reminder: Your resource booking 'Ladder' is scheduled for tomorrow."
                     (title r) = true)
      \/ (exists b s,
            In b (space_bookings store1) /\ In s (spaces store1)
            /\ entity_id b = space_id s /\ Some 1 = Some (user_id b)
            /\ "Reminder: Your resource booking 'Ladder' is scheduled for tomorrow."
               = App.space_tomorrow_text (space_name s)
            /\ contains "Reminder: Your resource booking 'Ladder' is scheduled for tomorrow."
                        (space_name s) = true)
      \/ (exists b e,
            In b (event_bookings store1) /\ In e (events store1)
            /\ entity_id b = event_id e /\ Some 1 = Some (user_id b)
            /\ "Reminder: Your resource booking 'Ladder' is scheduled for tomorrow."
               = App.event_tomorrow_text (event_name e)
            /\ contains "Reminder: Your resource booking 'Ladder' is scheduled for tomorrow."
                        (event_name e) = true)).
Proof.
  assert (Hin : In (Some 1,
                    "Reminder: Your resource booking 'Ladder' is scheduled for tomorrow.")
                   (reminders (log_of (App.check_upcoming_bookings nov9 store1))))
    by (simpl; left; reflexivity).
  split; [exact Hin|].
  exact (proj1 (C7_reminder_names_the_entity nov9 store1 (Some 1) _) Hin).
Defined.

(* ================================================================== *)
(** ** Dates as text: the day after is not before *)

Lemma compare_append_prefix (p s1 s2 : string) :
  String.compare (p +++ s1) (p +++ s2) = String.compare s1 s2.
Proof.
  induction p as [|a p IH]; simpl; [reflexivity|].
  unfold Ascii.compare. rewrite N.compare_refl. exact IH.
Qed.

Lemma leb_append_prefix (p s1 s2 : string) :
  String.leb (p +++ s1) (p +++ s2) = String.leb s1 s2.
Proof. unfold String.leb. rewrite compare_append_prefix. reflexivity. Qed.

(** A check run over a range of integers holds on each of them. *)
Lemma forallb_range (P : Z -> bool) (lo : Z) (len : nat) :
  forallb P (map (fun i => lo + Z.of_nat i) (seq 0 len)) = true ->
  forall z, lo <= z < lo + Z.of_nat len -> P z = true.
Proof.
  intros H z Hz. rewrite forallb_forall in H. apply H.
  apply in_map_iff. exists (Z.to_nat (z - lo)). split; [lia|].
  apply in_seq. lia.
Qed.

Lemma two_digits_next (n : Z) :
  0 <= n < 99 -> String.leb (two_digits n) (two_digits (n + 1)) = true.
Proof.
  intros Hn.
  apply (forallb_range
           (fun n => String.leb (two_digits n) (two_digits (n + 1))) 0 99);
    [vm_compute; reflexivity | lia].
Qed.

Lemma two_digits_next_strict (n : Z) (s1 s2 : string) :
  0 <= n < 99 ->
  String.leb (two_digits n +++ s1) (two_digits (n + 1) +++ s2) = true.
Proof.
  intros Hn.
  pose proof (forallb_range
                (fun k => match String.compare (two_digits k) (two_digits (k + 1))
                          with Lt => true | _ => false end) 0 99) as Hb.
  specialize (Hb ltac:(vm_compute; reflexivity) n ltac:(lia)).
  cbv beta in Hb.
  unfold String.leb, two_digits in *.
  cbn [String.compare String.append] in *.
  destruct (Ascii.compare (digit (n / 10)) (digit ((n + 1) / 10)));
    [|reflexivity | discriminate].
  destruct (Ascii.compare (digit (n mod 10)) (digit ((n + 1) mod 10)));
    [discriminate | reflexivity | discriminate].
Qed.

Lemma year_end_next (y : Z) :
  1000 <= y <= 9998 ->
  String.leb (strftime_Ymd (mkdate y 12 31)) (strftime_Ymd (mkdate (y + 1) 1 1)) = true.
Proof.
  intros Hy.
  apply (forallb_range
           (fun y => String.leb (strftime_Ymd (mkdate y 12 31))
                                (strftime_Ymd (mkdate (y + 1) 1 1)))
           1000 (Z.to_nat 8999));
    [vm_compute; reflexivity | lia].
Qed.

Lemma days_in_month_bounds (y m : Z) : 28 <= days_in_month y m <= 31.
Proof.
  unfold days_in_month.
  destruct (m =? 2); [destruct (is_leap y); lia|].
  destruct ((m =? 4) || (m =? 6) || (m =? 9) || (m =? 11)); lia.
Qed.

(** From year 1000 to year 9998 the text of the day after a date is not
    below the text of the date. *)
Lemma strftime_add_one_day (now : date) :
  valid_date now ->
  1000 <= year now <= 9998 ->
  String.leb (strftime_Ymd now) (strftime_Ymd (add_one_day now)) = true.
Proof.
  intros [Hm Hd] Hy. destruct now as [y m dd]. cbn [year month day] in *.
  pose proof (days_in_month_bounds y m) as Hdim.
  unfold add_one_day. cbn [year month day].
  destruct (dd <? days_in_month y m) eqn:Hlt.
  - apply Z.ltb_lt in Hlt. unfold strftime_Ymd. cbn [year month day].
    rewrite !leb_append_prefix. apply two_digits_next. lia.
  - apply Z.ltb_ge in Hlt.
    destruct (m <? 12) eqn:Hm12.
    + apply Z.ltb_lt in Hm12. unfold strftime_Ymd. cbn [year month day].
      rewrite !leb_append_prefix. apply two_digits_next_strict. lia.
    + apply Z.ltb_ge in Hm12.
      assert (m = 12) by lia. subst m.
      assert (dd = 31) by (change (days_in_month y 12) with 31 in *; lia).
      subst dd. apply year_end_next. exact Hy.
Qed.

(* ================================================================== *)
(** ** C9: the two scans *)

(** C9, refuted as stated.  On [store2] and 2024-11-09 the scan of app.py
    asks for three reminders and the scan of database.py for four: the
    booking dated 2024-11-09 is reminded by database.py's scan only, and no
    text of one scan is a text of the other. *)
Lemma C9_the_two_scans_differ :
  reminders (log_of (App.check_upcoming_bookings nov9 store2))
  = [(Some 1, "Reminder: Your resource booking 'Ladder' is scheduled for tomorrow.");
     (Some 2, "Reminder: Your space booking 'Hall' is scheduled for tomorrow.");
     (Some 1, "Reminder: Your event 'Cleanup' is scheduled for tomorrow.")]
  /\ reminders (log_of (Database.check_upcoming_bookings nov9 store2))
     = [(Some 1, "Reminder: Your resource booking 'Ladder' is scheduled for 2024-11-10.");
        (Some 2, "Reminder: Your resource booking 'Ladder' is scheduled for 2024-11-09.");
        (Some 2, "Reminder: Your space booking 'Hall' is scheduled for 2024-11-10.");
        (Some 1, "Reminder: Your event 'Cleanup' is scheduled for 2024-11-10.")]
  /\ ~ (forall x,
          In x (reminders (log_of (App.check_upcoming_bookings nov9 store2)))
          <-> In x (reminders (log_of (Database.check_upcoming_bookings nov9 store2)))).
Proof.
  split; [reflexivity|]. split; [reflexivity|].
  intros H.
  assert (Hin : In (Some 2,
                    "Reminder: Your resource booking 'Ladder' is scheduled for 2024-11-09.")
                   (reminders (log_of (App.check_upcoming_bookings nov9 store2)))).
  { apply H. simpl. right. left. reflexivity. }
  simpl in Hin. destruct Hin as [Hx|[Hx|[Hx|[]]]]; discriminate Hx.
Qed.

(** C9, amended.  For a date from year 1000 to year 9998, every reminder
    of app.py's scan has its counterpart in database.py's scan: the same
    receiver and the same entity, with the date of the day after [now] in
    the text where app.py's text says "tomorrow".  (database.py's scan
    reminds also the bookings dated today or after tomorrow.) *)
Theorem C9_app_reminders_have_database_counterparts (now : date) (d : db)
    (receiver : option Z) (text : string) :
  valid_date now ->
  1000 <= year now <= 9998 ->
  In (receiver, text) (reminders (log_of (App.check_upcoming_bookings now d))) ->
  exists name,
    (text = App.resource_tomorrow_text name
     /\ In (receiver, resource_reminder_text name (strftime_Ymd (add_one_day now)))
           (reminders (log_of (Database.check_upcoming_bookings now d))))
    \/ (text = App.space_tomorrow_text name
        /\ In (receiver, space_reminder_text name (strftime_Ymd (add_one_day now)))
              (reminders (log_of (Database.check_upcoming_bookings now d))))
    \/ (text = App.event_tomorrow_text name
        /\ In (receiver, event_reminder_text name (strftime_Ymd (add_one_day now)))
              (reminders (log_of (Database.check_upcoming_bookings now d)))).
Proof.
  intros Hvalid Hyear Hin.
  pose proof (strftime_add_one_day now Hvalid Hyear) as Hle.
  apply app_reminder_iff in Hin.
  destruct Hin as [H|[H|H]];
    destruct H as [b [e [Hb [He [Hk [Hd [Hr Ht]]]]]]].
  - exists (title e). left. split; [exact Ht|].
    apply database_reminder_iff. left. exists b, e.
    rewrite Hd. auto 7.
  - exists (space_name e). right; left. split; [exact Ht|].
    apply database_reminder_iff. right; left. exists b, e.
    rewrite Hd. auto 7.
  - exists (event_name e). right; right. split; [exact Ht|].
    apply database_reminder_iff. right; right. exists b, e.
    rewrite Hd. auto 7.
Qed.

Lemma C9_app_reminders_have_database_counterparts_witness :
  valid_date nov9
  /\ 1000 <= year nov9 <= 9998
  /\ exists name,
       ("Reminder: Your space booking 'Hall' is scheduled for tomorrow."
        = App.resource_tomorrow_text name
        /\ In (Some 2, resource_reminder_text name (strftime_Ymd (add_one_day nov9)))
              (reminders (log_of (Database.check_upcoming_bookings nov9 store2))))
       \/ ("Reminder: Your space booking 'Hall' is scheduled for tomorrow."
           = App.space_tomorrow_text name
           /\ In (Some 2, space_reminder_text name (strftime_Ymd (add_one_day nov9)))
                 (reminders (log_of (Database.check_upcoming_bookings nov9 store2))))
       \/ ("Reminder: Your space booking 'Hall' is scheduled for tomorrow."
           = App.event_tomorrow_text name
           /\ In (Some 2, event_reminder_text name (strftime_Ymd (add_one_day nov9)))
                 (reminders (log_of (Database.check_upcoming_bookings nov9 store2)))).
Proof.
  assert (Hv : valid_date nov9) by (repeat split; vm_compute; discriminate).
  assert (Hy : 1000 <= year nov9 <= 9998) by (simpl; lia).
  split; [exact Hv|]. split; [exact Hy|].
  apply (C9_app_reminders_have_database_counterparts nov9 store2 (Some 2) _ Hv Hy).
  simpl. right. left. reflexivity.
Defined.

(* ================================================================== *)
(** ** The name of an uploaded file *)

Lemma after_last_dot_none (s : string) :
  Uploads.after_last_dot s = None <-> Uploads.dot_free s = true.
Proof.
  induction s as [|c s IH]; simpl; [tauto|].
  destruct (Uploads.after_last_dot s) as [e|].
  - split; [discriminate|]. intros H. apply andb_true_iff in H as [_ H].
    apply IH in H. discriminate.
  - destruct (Ascii.eqb c ".") eqn:Hc; simpl.
    + split; discriminate.
    + split; intros _; [apply IH|]; reflexivity.
Qed.

Lemma after_last_dot_some (s e : string) :
  Uploads.after_last_dot s = Some e
  <-> exists stem, s = stem +++ "." +++ e /\ Uploads.dot_free e = true.
Proof.
  split.
  - revert e. induction s as [|c s IH]; simpl; intros e H; [discriminate|].
    destruct (Uploads.after_last_dot s) as [e'|] eqn:Hs.
    + inversion H; subst. destruct (IH e eq_refl) as [stem [Hst Hdf]].
      exists (String c stem). simpl. rewrite Hst. auto.
    + destruct (Ascii.eqb c ".") eqn:Hc; [|discriminate].
      inversion H; subst. apply Ascii.eqb_eq in Hc. subst c.
      exists EmptyString. split; [reflexivity|].
      apply after_last_dot_none. exact Hs.
  - intros [stem [Hs Hdf]]. subst s.
    induction stem as [|c stem IH]; simpl.
    + apply after_last_dot_none in Hdf. rewrite Hdf. reflexivity.
    + simpl in IH. rewrite IH. reflexivity.
Qed.

(** X1.  allowed_file accepts exactly the names that end in a '.' and an
    extension without a '.' which, in lower case, is png, jpg or jpeg: the
    text after the last '.' decides, whatever stands before it, and a name
    without a '.' is refused. *)
Theorem allowed_file_iff (filename : string) :
  Uploads.allowed_file filename = true
  <-> exists stem ext,
        filename = stem +++ "." +++ ext
        /\ Uploads.dot_free ext = true
        /\ (Uploads.lower ext = "png" \/ Uploads.lower ext = "jpg"
            \/ Uploads.lower ext = "jpeg").
Proof.
  unfold Uploads.allowed_file. split.
  - destruct (Uploads.after_last_dot filename) as [ext|] eqn:Hext; [|discriminate].
    apply after_last_dot_some in Hext as [stem [Hf Hdf]].
    intros H. exists stem, ext. split; [exact Hf|]. split; [exact Hdf|].
    simpl in H. rewrite !orb_true_iff, !String.eqb_eq in H.
    destruct H as [H|[H|[H|H]]]; auto; discriminate.
  - intros [stem [ext [Hf [Hdf Hl]]]].
    assert (Hext : Uploads.after_last_dot filename = Some ext)
      by (apply after_last_dot_some; eauto).
    rewrite Hext. simpl. rewrite !orb_true_iff, !String.eqb_eq. tauto.
Qed.

Example allowed_file_ex :
  Uploads.allowed_file "photo.PNG" = true
  /\ Uploads.allowed_file "archive.png.exe" = false
  /\ Uploads.allowed_file "png" = false
  /\ Uploads.allowed_file ".jpeg" = true.
Proof. repeat split; reflexivity. Qed.

(* ================================================================== *)
(** ** The scans and the store *)

(** X2.  Neither scan changes the store, and no run of scheduler ticks
    does: every insert a scan asks for is rejected, and a scan does nothing
    else to the tables.  A reminder is therefore never delivered. *)
Theorem scans_leave_the_store_unchanged (ticks : list date) (now : date) (d : db) :
  state_of (App.scheduler ticks d) = d
  /\ state_of (App.check_upcoming_bookings now d) = d
  /\ state_of (Database.check_upcoming_bookings now d) = d.
Proof.
  split; [apply scheduler_state|].
  split; [apply app_scan_state | apply database_scan_state].
Qed.

(* ================================================================== *)
(** ** Who may edit or delete an entity *)

Lemma update_resource_owners (d : db) (rid : Z) (t : string) (a : option string) :
  map (fun r => (resource_id r, resource_user_id r))
      (resources (update_resource d rid t a))
  = map (fun r => (resource_id r, resource_user_id r)) (resources d).
Proof.
  unfold update_resource. cbn. rewrite map_map. apply map_ext.
  intros r. destruct (resource_id r =? rid); reflexivity.
Qed.

Lemma update_space_owners (d : db) (sid : Z) (n : string) (a : option string) :
  map (fun s => (space_id s, created_by s)) (spaces (update_space d sid n a))
  = map (fun s => (space_id s, created_by s)) (spaces d).
Proof.
  unfold update_space. cbn. rewrite map_map. apply map_ext.
  intros s. destruct (space_id s =? sid); reflexivity.
Qed.

(** X3.  A resource or a space is changed or removed by its own routes
    only on the request of its owner: edit_resource, delete_resource_route,
    edit_space and delete_space leave the store as it is unless the entity
    exists and the session's user is the one who listed it (and, for an edit,
    the request is a POST).  An edit keeps the owner of every entity: the
    routes cannot pass an entity to another user. *)
Theorem only_the_owner_changes_an_entity
    (session_user_id : option Z) (m : Site.method) (text availability : string)
    (id : Z) (d : db) :
  (fst (Site.edit_resource session_user_id m text availability id d) = d
   \/ exists r,
        get_resource_by_id d id = Some r
        /\ session_user_id = Some (resource_user_id r) /\ m = Site.POST
        /\ fst (Site.edit_resource session_user_id m text availability id d)
           = update_resource d id text (Some availability))
  /\ (fst (Site.delete_resource_route session_user_id id d) = d
      \/ exists r,
           get_resource_by_id d id = Some r
           /\ session_user_id = Some (resource_user_id r)
           /\ fst (Site.delete_resource_route session_user_id id d)
              = delete_resource d id)
  /\ (fst (Site.edit_space session_user_id m text availability id d) = d
      \/ exists s,
           get_space_by_id d id = Some s
           /\ App.logged_in session_user_id = Some (created_by s) /\ m = Site.POST
           /\ fst (Site.edit_space session_user_id m text availability id d)
              = update_space d id text (Some availability))
  /\ (fst (Site.delete_space session_user_id id d) = d
      \/ exists s,
           get_space_by_id d id = Some s
           /\ App.logged_in session_user_id = Some (created_by s)
           /\ fst (Site.delete_space session_user_id id d) = delete_space d id)
  /\ map (fun r => (resource_id r, resource_user_id r))
         (resources (fst (Site.edit_resource session_user_id m text availability id d)))
     = map (fun r => (resource_id r, resource_user_id r)) (resources d)
  /\ map (fun s => (space_id s, created_by s))
         (spaces (fst (Site.edit_space session_user_id m text availability id d)))
     = map (fun s => (space_id s, created_by s)) (spaces d).
Proof.
  repeat split.
  - unfold Site.edit_resource.
    destruct session_user_id as [uid|]; [|auto].
    destruct (get_resource_by_id d id) as [r|]; [|auto].
    destruct (resource_user_id r =? uid) eqn:Ho; simpl; [|auto].
    apply Z.eqb_eq in Ho. subst uid.
    destruct m; simpl; [auto|]. right. exists r. auto.
  - unfold Site.delete_resource_route.
    destruct session_user_id as [uid|]; [|auto].
    destruct (get_resource_by_id d id) as [r|]; [|auto].
    destruct (resource_user_id r =? uid) eqn:Ho; simpl; [|auto].
    apply Z.eqb_eq in Ho. subst uid. right. exists r. auto.
  - unfold Site.edit_space.
    destruct (App.logged_in session_user_id) as [uid|]; [|auto].
    destruct (get_space_by_id d id) as [s|]; [|auto].
    destruct (created_by s =? uid) eqn:Ho; simpl; [|auto].
    apply Z.eqb_eq in Ho. subst uid.
    destruct m; simpl; [auto|]. right. exists s. auto.
  - unfold Site.delete_space.
    destruct (App.logged_in session_user_id) as [uid|]; [|auto].
    destruct (get_space_by_id d id) as [s|]; [|auto].
    destruct (created_by s =? uid) eqn:Ho; simpl; [|auto].
    apply Z.eqb_eq in Ho. subst uid. right. exists s. auto.
  - unfold Site.edit_resource.
    destruct session_user_id as [uid|]; [|reflexivity].
    destruct (get_resource_by_id d id) as [r|]; [|reflexivity].
    destruct (negb (resource_user_id r =? uid)); [reflexivity|].
    destruct m; [reflexivity|]. apply update_resource_owners.
  - unfold Site.edit_space.
    destruct (App.logged_in session_user_id) as [uid|]; [|reflexivity].
    destruct (get_space_by_id d id) as [s|]; [|reflexivity].
    destruct (negb (created_by s =? uid)); [reflexivity|].
    destruct m; [reflexivity|]. apply update_space_owners.
Qed.

(** The row get_event_by_id returns has no column hosted_by: reading it
    raises IndexError. *)
Lemma selected_event_has_no_host (d : db) (id : Z) (row : Row) :
  get_event_by_id d id = Some row ->
  getitem row "hosted_by" = Raise (IndexError "No item with that key").
Proof.
  unfold get_event_by_id.
  destruct (find (fun e => event_id e =? id) (events d)) as [e|]; [|discriminate].
  intros H. injection H as <-. reflexivity.
Qed.

(** X4.  edit_event and delete_event never change the store.  Whoever asks,
    the host included, a request for an event that exists ends in the
    IndexError of reading hosted_by, a column get_event_by_id does not
    select, before the route tests the host and before its UPDATE or DELETE;
    the other requests are sent to the login page or told that the event was
    not found. *)
Theorem events_are_not_edited_or_deleted
    (session_user_id : option Z) (m : Site.method) (name date : string)
    (id : Z) (d : db) :
  fst (Site.edit_event session_user_id m name date id d) = d
  /\ fst (Site.delete_event session_user_id id d) = d
  /\ (forall row uid,
        get_event_by_id d id = Some row ->
        App.logged_in session_user_id = Some uid ->
        snd (Site.edit_event session_user_id m name date id d)
        = Site.Uncaught (IndexError "No item with that key")
        /\ snd (Site.delete_event session_user_id id d)
           = Site.Uncaught (IndexError "No item with that key")).
Proof.
  unfold Site.edit_event, Site.delete_event.
  destruct (App.logged_in session_user_id) as [uid|];
    [|repeat split; intros; discriminate].
  destruct (get_event_by_id d id) as [row|] eqn:Hget;
    [|repeat split; intros; discriminate].
  rewrite (selected_event_has_no_host d id row Hget).
  repeat split; reflexivity.
Qed.

Lemma events_are_not_edited_or_deleted_witness :
  find (fun e => event_id e =? 3) (events store2)
  = Some (mkevent 3 "Cleanup" "2024-11-10" 2)
  /\ App.logged_in (Some 2) = Some 2
  /\ Site.edit_event (Some 2) Site.POST "Cleanup" "2024-11-17" 3 store2
     = (store2, Site.Uncaught (IndexError "No item with that key")).
Proof.
  split; [reflexivity|]. split; [reflexivity|].
  destruct (events_are_not_edited_or_deleted
              (Some 2) Site.POST "Cleanup" "2024-11-17" 3 store2)
    as [Hst [_ Hans]].
  destruct (Hans _ 2 eq_refl eq_refl) as [Hedit _].
  rewrite (surjective_pairing (Site.edit_event _ _ _ _ _ _)), Hst, Hedit.
  reflexivity.
Defined.

(* ================================================================== *)
(** ** A deleted resource and its bookings *)

Section DeletedEntity.

Context {E : Type} (key : E -> Z) (id : Z).

Lemma find_after_delete (es : list E) :
  find (fun e => key e =? id) (filter (fun e => negb (key e =? id)) es) = None.
Proof.
  induction es as [|e es IH]; simpl; [reflexivity|].
  destruct (key e =? id) eqn:Hk; simpl; [exact IH|].
  rewrite Hk. exact IH.
Qed.

Lemma join_after_delete (bs : list booking) (es : list E) :
  join key bs (filter (fun e => negb (key e =? id)) es)
  = filter (fun x => negb (entity_id (fst x) =? id)) (join key bs es).
Proof.
  unfold join. induction bs as [|b bs IH]; simpl; [reflexivity|].
  rewrite filter_app, IH. f_equal. clear IH.
  induction es as [|e es IHes]; simpl; [reflexivity|].
  destruct (key e =? id) eqn:Hk; simpl.
  - destruct (entity_id b =? key e) eqn:Hb; simpl; [|exact IHes].
    apply Z.eqb_eq in Hb. rewrite <- Hb in Hk. rewrite Hk. simpl. exact IHes.
  - destruct (entity_id b =? key e) eqn:Hb; simpl; [|exact IHes].
    apply Z.eqb_eq in Hb. rewrite <- Hb in Hk. rewrite Hk. simpl.
    rewrite IHes. reflexivity.
Qed.

Lemma listing_after_delete {B : Type} (f : booking * E -> booking * B)
    (U : booking * E -> bool) (l : list (booking * E)) :
  (forall x, fst (f x) = fst x) ->
  map f (filter U (filter (fun x => negb (entity_id (fst x) =? id)) l))
  = filter (fun y => negb (entity_id (fst y) =? id)) (map f (filter U l)).
Proof.
  intros Hf. induction l as [|x l IH]; simpl; [reflexivity|].
  destruct (negb (entity_id (fst x) =? id)) eqn:Hq; simpl;
    destruct (U x); simpl; rewrite ?Hf, ?Hq, ?IH; reflexivity.
Qed.

End DeletedEntity.

(** X5.  When its owner deletes a resource, the bookings of the resource
    stay in the booking table (nothing cascades), but they are gone from
    every user's list of bookings and from what the scan selects, while
    the bookings of other resources are listed and selected as before; and
    the resource can no longer be booked. *)
Theorem deleted_resource_leaves_unlisted_bookings
    (session_user_id : option Z) (id : Z) (d : db) (r : resource) :
  get_resource_by_id d id = Some r ->
  session_user_id = Some (resource_user_id r) ->
  let d' := fst (Site.delete_resource_route session_user_id id d) in
  get_resource_by_id d' id = None
  /\ resource_bookings d' = resource_bookings d
  /\ (forall uid,
        get_resource_bookings_by_user d' uid
        = filter (fun x => negb (entity_id (fst x) =? id))
                 (get_resource_bookings_by_user d uid))
  /\ (forall upcoming_date,
        App.upcoming_resource_bookings upcoming_date d'
        = filter (fun x => negb (entity_id (fst x) =? id))
                 (App.upcoming_resource_bookings upcoming_date d))
  /\ (forall s now uid,
        App.logged_in s = Some uid ->
        App.book_resource_route s now id d'
        = (d', App.mkresponse ("Resource not found.", "error") App.list_resources)).
Proof.
  intros Hget Hs. subst session_user_id. cbv zeta.
  unfold Site.delete_resource_route. rewrite Hget, Z.eqb_refl. cbn [negb fst].
  assert (Hnone : get_resource_by_id (delete_resource d id) id = None)
    by (unfold get_resource_by_id, delete_resource; cbn;
        apply (find_after_delete resource_id)).
  split; [exact Hnone|]. split; [reflexivity|]. split; [|split].
  - intros uid. unfold get_resource_bookings_by_user, delete_resource.
    cbn [resources resource_bookings with_resources].
    rewrite (join_after_delete resource_id).
    apply (listing_after_delete id
             (fun br : booking * resource => (fst br, title (snd br)))).
    reflexivity.
  - intros upcoming_date. unfold App.upcoming_resource_bookings, delete_resource.
    cbn [resources resource_bookings with_resources].
    rewrite (join_after_delete resource_id).
    induction (join resource_id (resource_bookings d) (resources d)) as [|x l IH];
      simpl; [reflexivity|].
    destruct (negb (entity_id (fst x) =? id)) eqn:Hq; simpl;
      destruct (String.eqb (booking_date (fst x)) upcoming_date); simpl;
      rewrite ?Hq, ?IH; reflexivity.
  - intros s now uid Hlog. unfold App.book_resource_route.
    rewrite Hlog, Hnone. reflexivity.
Qed.

Lemma deleted_resource_leaves_unlisted_bookings_witness :
  get_resource_by_id store2 7 = Some (mkresource 7 2 "Ladder" (Some "2024-12-25"))
  /\ get_resource_bookings_by_user store2 1
     = [(mkbooking 1 1 7 "2024-11-10", "Ladder")]
  /\ resource_bookings (fst (Site.delete_resource_route (Some 2) 7 store2))
     = resource_bookings store2
  /\ get_resource_bookings_by_user
       (fst (Site.delete_resource_route (Some 2) 7 store2)) 1 = [].
Proof.
  split; [reflexivity|]. split; [reflexivity|].
  destruct (deleted_resource_leaves_unlisted_bookings (Some 2) 7 store2 _
              eq_refl eq_refl) as [_ [Hrows [Hlist _]]].
  split; [exact Hrows|]. rewrite Hlist. reflexivity.
Defined.

(* ================================================================== *)
(** ** Messages *)

Lemma next_rowid_above_messages (d : db) (rowid : Z) :
  next_rowid (seq_messages d) (map message_id (messages d)) = Ok rowid ->
  Forall (fun x => message_id x < rowid) (messages d).
Proof.
  intros Hn.
  pose proof (next_rowid_above _ _ _ Hn) as H.
  rewrite Forall_forall in *. intros x Hx. apply H. apply in_map. exact Hx.
Qed.

(** An insert into messages that is accepted names its sender, receiver
    and text, and stores them in one row with the table's next rowid. *)
Lemma insert_message_ok (d d' : db) (s r : option Z) (t : option string) (flag : Z) :
  insert_message d s r t flag = Ok d' ->
  exists sender receiver text rowid,
    s = Some sender /\ r = Some receiver /\ t = Some text
    /\ next_rowid (seq_messages d) (map message_id (messages d)) = Ok rowid
    /\ d' = with_messages d
              (messages d ++ [mkmessage rowid (Some sender) receiver text flag])%list
              rowid.
Proof.
  unfold insert_message.
  destruct (bind_integer s); cbn [bind]; [|discriminate].
  destruct (bind_integer r); cbn [bind]; [|discriminate].
  destruct (next_rowid _ _) as [rowid|] eqn:Hn; cbn [bind]; [|discriminate].
  destruct s as [sender|]; cbn [not_null bind]; [|discriminate].
  destruct r as [receiver|]; cbn [not_null bind]; [|discriminate].
  destruct t as [text|]; cbn [not_null bind]; [|discriminate].
  intros H. injection H as <-. eauto 10.
Qed.

(** What a request to send_message_route does to the store. *)
Lemma send_message_route_cases
    (session_user_id : option Z) (m : Site.method) (form_content : option string)
    (receiver : Z) (d : db) :
  let d' := fst (Site.send_message_route session_user_id m form_content receiver d) in
  d' = d
  \/ exists uid u text rowid,
       App.logged_in session_user_id = Some uid
       /\ 0 < receiver /\ get_user_by_id d receiver = Some u
       /\ m = Site.POST /\ form_content = Some text /\ text <> EmptyString
       /\ d' = with_messages d
                 (messages d ++ [mkmessage rowid (Some uid) receiver text 0])%list rowid
       /\ Forall (fun x => message_id x < rowid) (messages d).
Proof.
  cbv zeta. unfold Site.send_message_route.
  destruct (App.logged_in session_user_id) as [uid|]; [|auto].
  destruct (receiver <=? 0) eqn:Hr; [auto|]. apply Z.leb_gt in Hr.
  destruct (get_user_by_id d receiver) as [u|] eqn:Hu; [|auto].
  destruct m; [auto|].
  destruct form_content as [[|c text]|]; [auto| |auto].
  destruct (Messages.send_message d (Some uid) (Some receiver) (Some (String c text)))
    as [d'|e] eqn:Hsend; [|auto].
  apply insert_message_ok in Hsend
    as (sender & receiver' & text' & rowid & Hs & Hr' & Ht & Hn & ->).
  injection Hs as <-. injection Hr' as <-. injection Ht as <-.
  right. exists uid, u, (String c text), rowid.
  repeat (split; [first [reflexivity | assumption | discriminate]|]).
  apply next_rowid_above_messages. exact Hn.
Qed.

(** X6.  send_message_route stores a message only for a logged-in sender,
    a receiver identifier above 0 that is a user of the store, a POST and a
    text that is not empty; it then adds exactly one row, at the end of the
    table, with that sender and receiver, the text as given, the system
    flag 0 and an identifier above every identifier in the table.  Every
    other request leaves the store as it is. *)
Theorem send_message_route_stores_one_user_message
    (session_user_id : option Z) (m : Site.method) (form_content : option string)
    (receiver : Z) (d : db) :
  let d' := fst (Site.send_message_route session_user_id m form_content receiver d) in
  d' = d
  \/ exists uid u text rowid,
       App.logged_in session_user_id = Some uid
       /\ 0 < receiver /\ get_user_by_id d receiver = Some u
       /\ m = Site.POST /\ form_content = Some text /\ text <> EmptyString
       /\ messages d' = (messages d ++ [mkmessage rowid (Some uid) receiver text 0])%list
       /\ Forall (fun x => message_id x < rowid) (messages d).
Proof.
  cbv zeta.
  destruct (send_message_route_cases session_user_id m form_content receiver d)
    as [Heq|[uid [u [text [rowid [H1 [H2 [H3 [H4 [H5 [H6 [H7 H8]]]]]]]]]]]].
  - left. exact Heq.
  - right. exists uid, u, text, rowid. rewrite H7. auto 10.
Qed.

Ltac route_cases :=
  repeat match goal with
         | |- context [match ?x with _ => _ end] => destruct x
         end;
  try reflexivity.

Lemma step_messages (d d' : db) : step d d' -> messages d' = messages d.
Proof.
  intros Hstep. destruct Hstep.
  - destruct (book_resource_route_cases s now eid d)
      as [[-> _]|(uid & rowid & _ & _ & _ & _ & _ & _ & ->)]; reflexivity.
  - destruct (book_space_route_cases s now eid d)
      as [[-> _]|(uid & rowid & _ & _ & _ & _ & _ & _ & ->)]; reflexivity.
  - destruct (book_event_route_cases s now eid d)
      as [[-> _]|(uid & rowid & _ & _ & _ & _ & _ & _ & ->)]; reflexivity.
  - unfold App.unbook_resource. route_cases.
  - unfold App.unbook_space. route_cases.
  - unfold App.unbook_event. route_cases.
  - destruct (schedule_notifications_run now d) as [Hst _]. rewrite Hst. reflexivity.
  - apply create_resource_ok in H as (? & ? & ? & _ & ->). reflexivity.
  - apply create_space_ok in H as (? & ? & ? & _ & ->). reflexivity.
  - apply create_event_ok in H as (? & ? & ? & ? & _ & ->). reflexivity.
  - reflexivity.
  - reflexivity.
  - reflexivity.
  - reflexivity.
  - reflexivity.
  - reflexivity.
Qed.

Lemma request_no_system_message (d d' : db) :
  Site.request d d' -> Site.no_system_message d -> Site.no_system_message d'.
Proof.
  unfold Site.no_system_message. intros Hreq Hno. destruct Hreq.
  - rewrite (step_messages _ _ H). exact Hno.
  - unfold Site.edit_resource. route_cases; assumption.
  - unfold Site.delete_resource_route. route_cases; assumption.
  - unfold Site.edit_space. route_cases; assumption.
  - unfold Site.delete_space. route_cases; assumption.
  - unfold Site.edit_event. route_cases; assumption.
  - unfold Site.delete_event. route_cases; assumption.
  - destruct (send_message_route_cases s m c r d)
      as [Heq|[uid [u [text [rowid [_ [_ [_ [_ [_ [_ [Hm _]]]]]]]]]]]].
    + rewrite Heq. exact Hno.
    + rewrite Hm. cbn [messages with_messages]. apply Forall_app.
      split; [exact Hno|]. repeat constructor.
Qed.

(** X7.  If no row of the messages table is a system message, none is after
    any run of requests, scheduler ticks and catalog operations: a message
    sent by a user has the flag 0 and the inserts of send_system_message are
    rejected.  The inbox's list of system messages therefore stays empty
    for every user. *)
Theorem no_system_message_is_ever_stored (d d' : db) :
  Site.no_system_message d ->
  Site.run d d' ->
  Site.no_system_message d'
  /\ forall uid, Messages.system_messages d' uid = [].
Proof.
  intros Hno Hrun.
  assert (Hno' : Site.no_system_message d').
  { induction Hrun as [|d d1 d2 _ IH Hreq]; [exact Hno|].
    exact (request_no_system_message d1 d2 Hreq (IH Hno)). }
  split; [exact Hno'|].
  intros uid. unfold Messages.system_messages, Site.no_system_message in *.
  induction (messages d') as [|x l IH]; simpl; [reflexivity|].
  inversion Hno' as [|? ? Hx Hl]; subst.
  rewrite Hx. rewrite andb_false_r. apply IH. exact Hl.
Qed.

Lemma no_system_message_is_ever_stored_witness :
  Site.no_system_message store1
  /\ messages (state_of (App.scheduler [nov9]
        (fst (Site.send_message_route (Some 1) Site.POST (Some "Hello") 2 store1))))
     = [mkmessage 1 (Some 1) 2 "Hello" 0]
  /\ Messages.system_messages
       (state_of (App.scheduler [nov9]
          (fst (Site.send_message_route (Some 1) Site.POST (Some "Hello") 2 store1))))
       1 = [].
Proof.
  assert (Hno : Site.no_system_message store1) by constructor.
  split; [exact Hno|]. split; [reflexivity|].
  refine (proj2 (no_system_message_is_ever_stored store1 _ Hno _) 1).
  eapply Site.run_next; [eapply Site.run_next; [apply Site.run_done|]|].
  - apply (Site.request_send_message (Some 1) Site.POST (Some "Hello") 2).
  - apply Site.request_step.
    replace (state_of (App.scheduler [nov9]
               (fst (Site.send_message_route (Some 1) Site.POST (Some "Hello") 2
                       store1))))
      with (state_of (App.schedule_notifications nov9
               (fst (Site.send_message_route (Some 1) Site.POST (Some "Hello") 2
                       store1)))) by reflexivity.
    apply step_tick.
Defined.

(* ================================================================== *)
(** ** A booking and the list it shows up in *)

Section Listing.

Context {E : Type} (key : E -> Z) (name : E -> string).

Lemma lookup_found (es : list E) (k : Z) (e : E) :
  NoDup (map key es) ->
  find (fun x => key x =? k) es = Some e ->
  filter (fun x => k =? key x) es = [e].
Proof.
  induction es as [|a es IH]; simpl; intros Hnd Hfind; [discriminate|].
  inversion Hnd as [|? ? Hnotin Hnd']; subst.
  rewrite (Z.eqb_sym k (key a)).
  destruct (key a =? k) eqn:Hk.
  - inversion Hfind; subst. f_equal.
    apply Z.eqb_eq in Hk.
    destruct (filter (fun x => k =? key x) es) as [|x l] eqn:Hf; [reflexivity|].
    exfalso. apply Hnotin.
    assert (Hin : In x (filter (fun x => k =? key x) es))
      by (rewrite Hf; left; reflexivity).
    apply filter_In in Hin as [Hin Hx]. apply Z.eqb_eq in Hx.
    rewrite Hk, Hx. apply in_map. exact Hin.
  - apply IH; assumption.
Qed.

Lemma join_snoc (bs : list booking) (b : booking) (es : list E) :
  join key (bs ++ [b])%list es
  = (join key bs es ++ map (pair b) (filter (fun e => entity_id b =? key e) es))%list.
Proof. unfold join. rewrite flat_map_app. simpl. rewrite app_nil_r. reflexivity. Qed.

(** The list of a user after one more booking row whose entity is in the
    catalog: the user who booked has one more line, at the end; the lists
    of the others are as before. *)
Lemma listing_after_insert (bs : list booking) (b : booking) (es : list E)
    (e : E) (uid : Z) :
  NoDup (map key es) ->
  find (fun x => key x =? entity_id b) es = Some e ->
  map (fun x => (fst x, name (snd x)))
      (filter (fun x => user_id (fst x) =? uid) (join key (bs ++ [b])%list es))
  = (map (fun x => (fst x, name (snd x)))
         (filter (fun x => user_id (fst x) =? uid) (join key bs es))
     ++ (if user_id b =? uid then [(b, name e)] else []))%list.
Proof.
  intros Hnd Hfind.
  rewrite join_snoc, filter_app, map_app.
  rewrite (lookup_found es (entity_id b) e Hnd Hfind). simpl.
  destruct (user_id b =? uid); reflexivity.
Qed.

End Listing.

(** X8.  A booking that went through shows up at once: the list of
    bookings of the user who booked is the list as it was with one more
    line at its end, the new booking with the day of the call and the
    display name of the entity, and the lists of all other users are as
    they were.  (The keys of the catalog table are unique.) *)
Theorem booking_shows_in_the_list_of_its_user
    (session_user_id : option Z) (now : date) (eid : Z) (d : db) :
  (NoDup (map resource_id (resources d)) ->
   App.flashed (snd (App.book_resource_route session_user_id now eid d))
   = ("Resource booked successfully!", "success") ->
   exists uid r rowid,
     App.logged_in session_user_id = Some uid
     /\ get_resource_by_id d eid = Some r
     /\ forall u,
          get_resource_bookings_by_user
            (fst (App.book_resource_route session_user_id now eid d)) u
          = (get_resource_bookings_by_user d u
             ++ (if uid =? u
                 then [(mkbooking rowid uid eid (strftime_Ymd now), title r)]
                 else []))%list)
  /\ (NoDup (map space_id (spaces d)) ->
      App.flashed (snd (App.book_space_route session_user_id now eid d))
      = ("Space booked successfully!", "success") ->
      exists uid s rowid,
        App.logged_in session_user_id = Some uid
        /\ get_space_by_id d eid = Some s
        /\ forall u,
             get_space_bookings_by_user
               (fst (App.book_space_route session_user_id now eid d)) u
             = (get_space_bookings_by_user d u
                ++ (if uid =? u
                    then [(mkbooking rowid uid eid (strftime_Ymd now), space_name s)]
                    else []))%list)
  /\ (NoDup (map event_id (events d)) ->
      App.flashed (snd (App.book_event_route session_user_id now eid d))
      = ("Event booked successfully!", "success") ->
      exists uid e rowid,
        App.logged_in session_user_id = Some uid
        /\ get_event_by_id d eid = Some (event_row e)
        /\ forall u,
             get_event_bookings_by_user
               (fst (App.book_event_route session_user_id now eid d)) u
             = (get_event_bookings_by_user d u
                ++ (if uid =? u
                    then [(mkbooking rowid uid eid (strftime_Ymd now), event_name e)]
                    else []))%list).
Proof.
  split; [|split]; intros Hnd Hok.
  - destruct (book_resource_route_cases session_user_id now eid d)
      as [[_ Hno]|(uid & rowid & Hlog & Hget & _ & _ & _ & _ & Hr)];
      [contradiction|].
    destruct (get_resource_by_id d eid) as [r|] eqn:Hfind; [|contradiction].
    exists uid, r, rowid. split; [exact Hlog|]. split; [reflexivity|].
    intros u. rewrite Hr. unfold get_resource_bookings_by_user.
    cbn [fst resource_bookings resources with_resource_bookings].
    apply (listing_after_insert resource_id title); assumption.
  - destruct (book_space_route_cases session_user_id now eid d)
      as [[_ Hno]|(uid & rowid & Hlog & Hget & _ & _ & _ & _ & Hr)];
      [contradiction|].
    destruct (get_space_by_id d eid) as [sp|] eqn:Hfind; [|contradiction].
    exists uid, sp, rowid. split; [exact Hlog|]. split; [reflexivity|].
    intros u. rewrite Hr. unfold get_space_bookings_by_user.
    cbn [fst space_bookings spaces with_space_bookings].
    apply (listing_after_insert space_id space_name); assumption.
  - destruct (book_event_route_cases session_user_id now eid d)
      as [[_ Hno]|(uid & rowid & Hlog & Hget & _ & _ & _ & _ & Hr)];
      [contradiction|].
    unfold get_event_by_id in *.
    destruct (find (fun e => event_id e =? eid) (events d)) as [e|] eqn:Hfind;
      [|contradiction].
    exists uid, e, rowid. split; [exact Hlog|]. split; [reflexivity|].
    intros u. rewrite Hr. unfold get_event_bookings_by_user.
    cbn [fst event_bookings events with_event_bookings].
    apply (listing_after_insert event_id event_name); assumption.
Qed.

Lemma booking_shows_in_the_list_witness :
  NoDup (map resource_id (resources listed))
  /\ App.flashed (snd (App.book_resource_route (Some 1) nov9 1 listed))
     = ("Resource booked successfully!", "success")
  /\ exists uid r rowid,
       App.logged_in (Some 1) = Some uid
       /\ get_resource_by_id listed 1 = Some r
       /\ forall u,
            get_resource_bookings_by_user
              (fst (App.book_resource_route (Some 1) nov9 1 listed)) u
            = (get_resource_bookings_by_user listed u
               ++ (if uid =? u
                   then [(mkbooking rowid uid 1 (strftime_Ymd nov9), title r)]
                   else []))%list.
Proof.
  assert (Hnd : NoDup (map resource_id (resources listed)))
    by (simpl; repeat constructor; simpl; tauto).
  split; [exact Hnd|]. split; [reflexivity|].
  exact (proj1 (booking_shows_in_the_list_of_its_user (Some 1) nov9 1 listed)
           Hnd eq_refl).
Defined.

(* ================================================================== *)
(** ** Booking identifiers *)

(** The rowid after one that was handed out: the next number, or none
    when the one handed out was the largest rowid there is. *)
Lemma next_rowid_next (seq : Z) (ids : list Z) (n : Z) :
  next_rowid seq ids = Ok n ->
  next_rowid n ids
  = if n <? MAX_ROWID then Ok (n + 1)
    else Raise (OperationalError "database or disk is full").
Proof.
  intros Hn. apply next_rowid_ok in Hn as [Hn _].
  pose proof (largest_rowid_above seq ids) as [Hpos _].
  unfold next_rowid.
  replace (largest_rowid n ids) with n
    by (unfold largest_rowid in *; lia).
  reflexivity.
Qed.

Lemma delete_last_booking (rows : list booking) (n uid eid : Z) (bd : string) :
  Forall (fun i => i < n) (map booking_id rows) ->
  App.delete_booking (rows ++ [mkbooking n uid eid bd])%list n uid = rows.
Proof.
  unfold App.delete_booking. rewrite filter_app. simpl.
  rewrite !Z.eqb_refl. simpl. rewrite app_nil_r.
  intros Habove. induction rows as [|b rows IH]; simpl; [reflexivity|].
  simpl in Habove. inversion Habove as [|? ? Hb Hrest]; subst.
  replace (booking_id b =? n) with false by (symmetry; apply Z.eqb_neq; lia).
  simpl. rewrite IH; [reflexivity | exact Hrest].
Qed.

(** X9.  A booking identifier is not given twice.  After a booking that
    went through with identifier n, the user's unbook request for n puts
    the booking table back to the rows it had, and the next booking gets
    the identifier n + 1, not n again; when n is the largest rowid there is,
    the next booking is refused and the table stays as it is.  An old unbook
    request cannot hit a later booking. *)
Theorem booking_identifiers_are_not_reused
    (session_user_id : option Z) (now now' : date) (rid : Z) (d : db) :
  App.flashed (snd (App.book_resource_route session_user_id now rid d))
  = ("Resource booked successfully!", "success") ->
  let d1 := fst (App.book_resource_route session_user_id now rid d) in
  exists uid n,
    App.logged_in session_user_id = Some uid
    /\ next_rowid (seq_resource_bookings d) (map booking_id (resource_bookings d))
       = Ok n
    /\ resource_bookings d1
       = (resource_bookings d ++ [mkbooking n uid rid (strftime_Ymd now)])%list
    /\ let d2 := fst (App.unbook_resource session_user_id n d1) in
       resource_bookings d2 = resource_bookings d
       /\ resource_bookings (fst (App.book_resource_route session_user_id now' rid d2))
          = if n <? MAX_ROWID
            then (resource_bookings d
                  ++ [mkbooking (n + 1) uid rid (strftime_Ymd now')])%list
            else resource_bookings d.
Proof.
  cbv zeta. intros Hok.
  destruct (book_resource_route_cases session_user_id now rid d)
    as [[_ Hno]|(uid & n & Hlog & Hget & Hu & He & Hb & Hn & Hr)];
    [contradiction|].
  exists uid, n. rewrite Hr. cbn [fst].
  split; [exact Hlog|]. split; [exact Hn|]. split; [reflexivity|].
  assert (Hd2 : fst (App.unbook_resource session_user_id n
                       (with_resource_bookings d
                          (resource_bookings d
                           ++ [mkbooking n uid rid (strftime_Ymd now)])%list n))
                = with_resource_bookings d (resource_bookings d) n).
  { unfold App.unbook_resource.
    rewrite Hlog, (next_rowid_sqlite_integer _ _ _ Hn), Hu.
    cbn [negb andb fst resource_bookings seq_resource_bookings with_resource_bookings].
    rewrite delete_last_booking by exact (next_rowid_above _ _ _ Hn).
    reflexivity. }
  rewrite Hd2. split; [reflexivity|].
  unfold App.book_resource_route. rewrite Hlog.
  change (get_resource_by_id (with_resource_bookings d (resource_bookings d) n) rid)
    with (get_resource_by_id d rid).
  destruct (get_resource_by_id d rid) as [r|]; [|contradiction].
  rewrite Hu, He.
  cbn [negb andb resource_bookings with_resource_bookings].
  rewrite Hb. unfold book_resource.
  rewrite (insert_booking_run _ _ _ _ _ _ _ Hu He).
  cbn [resource_bookings seq_resource_bookings with_resource_bookings].
  rewrite (next_rowid_next _ _ _ Hn).
  destruct (n <? MAX_ROWID); reflexivity.
Qed.

Lemma booking_identifiers_are_not_reused_witness :
  App.flashed (snd (App.book_resource_route (Some 1) nov9 1 listed))
  = ("Resource booked successfully!", "success")
  /\ resource_bookings
       (fst (App.book_resource_route (Some 1) (add_one_day nov9) 1
               (fst (App.unbook_resource (Some 1) 1
                       (fst (App.book_resource_route (Some 1) nov9 1 listed))))))
     = [mkbooking 2 1 1 "2024-11-10"].
Proof.
  split; [reflexivity|].
  destruct (booking_identifiers_are_not_reused (Some 1) nov9 (add_one_day nov9) 1
              listed eq_refl) as (uid & n & Hlog & Hn & _ & _ & Hagain).
  vm_compute in Hlog. injection Hlog as <-.
  vm_compute in Hn. injection Hn as <-.
  exact Hagain.
Defined.

(* ================================================================== *)
(** ** How many reminders a scan asks for *)

Lemma join_length {E : Type} (key : E -> Z) (P : booking * E -> bool)
    (bs : list booking) (es : list E) :
  NoDup (map key es) ->
  (List.length (filter P (join key bs es)) <= List.length bs)%nat.
Proof.
  intros Hnd. unfold join.
  induction bs as [|b bs IH]; simpl; [lia|].
  rewrite filter_app, length_app.
  destruct (lookup_by_unique_key key es (entity_id b) Hnd) as [Hf|[e Hf]];
    rewrite Hf; simpl; [lia|].
  destruct (P (b, e)); simpl; lia.
Qed.

(** X10.  On a store whose tables are in rowid order with unique keys, one
    scan selects each booking row at most once (the rows it selects come in
    strictly ascending booking identifier within each kind), so a scan of
    either module asks for at most as many reminders as there are booking
    rows. *)
Theorem scan_reminds_each_booking_at_most_once (now : date) (d : db) :
  well_formed d ->
  (rowid_ordered (map (fun x => booking_id (fst x))
                      (App.upcoming_resource_bookings
                         (strftime_Ymd (add_one_day now)) d))
   /\ rowid_ordered (map (fun x => booking_id (fst x))
                         (App.upcoming_space_bookings
                            (strftime_Ymd (add_one_day now)) d))
   /\ rowid_ordered (map (fun x => booking_id (fst x))
                         (App.upcoming_event_bookings
                            (strftime_Ymd (add_one_day now)) d)))
  /\ (List.length (reminders (log_of (App.check_upcoming_bookings now d)))
      <= List.length (resource_bookings d) + List.length (space_bookings d)
         + List.length (event_bookings d))%nat
  /\ (List.length (reminders (log_of (Database.check_upcoming_bookings now d)))
      <= List.length (resource_bookings d) + List.length (space_bookings d)
         + List.length (event_bookings d))%nat.
Proof.
  intros [Hr Hs He Hrb Hsb Heb].
  split; [|split].
  - unfold App.upcoming_resource_bookings, App.upcoming_space_bookings,
      App.upcoming_event_bookings.
    repeat split; apply join_rowid_ordered; assumption.
  - rewrite app_scan_reminders. unfold app_due_reminders.
    rewrite !length_app, !length_map.
    unfold App.upcoming_resource_bookings, App.upcoming_space_bookings,
      App.upcoming_event_bookings.
    pose proof (join_length resource_id
                  (fun br => String.eqb (booking_date (fst br))
                                        (strftime_Ymd (add_one_day now)))
                  (resource_bookings d) (resources d) Hr).
    pose proof (join_length space_id
                  (fun bs => String.eqb (booking_date (fst bs))
                                        (strftime_Ymd (add_one_day now)))
                  (space_bookings d) (spaces d) Hs).
    pose proof (join_length event_id
                  (fun be => String.eqb (event_date (snd be))
                                        (strftime_Ymd (add_one_day now)))
                  (event_bookings d) (events d) He).
    lia.
  - rewrite database_scan_reminders. unfold database_due_reminders.
    rewrite !length_app, !length_map.
    unfold future_resource_bookings, future_space_bookings, future_event_bookings.
    pose proof (join_length resource_id
                  (fun br => String.leb (strftime_Ymd now) (booking_date (fst br)))
                  (resource_bookings d) (resources d) Hr).
    pose proof (join_length space_id
                  (fun bs => String.leb (strftime_Ymd now) (booking_date (fst bs)))
                  (space_bookings d) (spaces d) Hs).
    pose proof (join_length event_id
                  (fun be => String.leb (strftime_Ymd now) (event_date (snd be)))
                  (event_bookings d) (events d) He).
    lia.
Qed.

Lemma scan_reminds_each_booking_at_most_once_witness :
  well_formed store2
  /\ (List.length (reminders (log_of (Database.check_upcoming_bookings nov9 store2)))
      <= List.length (resource_bookings store2) + List.length (space_bookings store2)
         + List.length (event_bookings store2))%nat.
Proof.
  split; [exact store2_well_formed|].
  apply (scan_reminds_each_booking_at_most_once nov9 store2 store2_well_formed).
Defined.

(* ================================================================== *)
(** ** The scan of database.py from one day to the next *)

Lemma string_leb_trans (a b c : string) :
  String.leb a b = true -> String.leb b c = true -> String.leb a c = true.
Proof.
  unfold String.leb. revert b c.
  induction a as [|x a IH]; intros [|y b] [|z c]; simpl; try easy.
  unfold Ascii.compare.
  destruct (N.compare_spec (N_of_ascii x) (N_of_ascii y)) as [Hxy|Hxy|Hxy];
    destruct (N.compare_spec (N_of_ascii y) (N_of_ascii z)) as [Hyz|Hyz|Hyz];
    try easy.
  - rewrite Hxy, Hyz, N.compare_refl. apply IH.
  - intros _ _. rewrite Hxy. apply N.compare_lt_iff in Hyz. rewrite Hyz. reflexivity.
  - intros _ _. rewrite <- Hyz. apply N.compare_lt_iff in Hxy. rewrite Hxy.
    reflexivity.
  - intros _ _. assert (H : (N_of_ascii x < N_of_ascii z)%N) by lia.
    apply N.compare_lt_iff in H. rewrite H. reflexivity.
Qed.

(** X11.  Whatever database.py's scan reminds on the day after a date, it
    reminds on that date as well, receiver and text the same: run day after
    day, this scan repeats the reminder of a booking on every day up to the
    booking's date.  (Dates from year 1000 to year 9998.) *)
Theorem database_scan_repeats_its_reminders (now : date) (d : db)
    (receiver : option Z) (text : string) :
  valid_date now ->
  1000 <= year now <= 9998 ->
  In (receiver, text)
     (reminders (log_of (Database.check_upcoming_bookings (add_one_day now) d))) ->
  In (receiver, text)
     (reminders (log_of (Database.check_upcoming_bookings now d))).
Proof.
  intros Hvalid Hyear Hin.
  pose proof (strftime_add_one_day now Hvalid Hyear) as Hle.
  apply database_reminder_iff in Hin. apply database_reminder_iff.
  destruct Hin as [H|[H|H]];
    destruct H as [b [e [Hb [He [Hk [Hd [Hr Ht]]]]]]];
    [left | right; left | right; right]; exists b, e;
    repeat (split; [assumption|]);
    (split; [exact (string_leb_trans _ _ _ Hle Hd)|]); auto.
Qed.

Lemma database_scan_repeats_its_reminders_witness :
  valid_date (mkdate 2024 11 8)
  /\ 1000 <= year (mkdate 2024 11 8) <= 9998
  /\ In (Some 1, "Reminder: Your event 'Cleanup' is scheduled for 2024-11-10.")
        (reminders (log_of (Database.check_upcoming_bookings (mkdate 2024 11 8) store2))).
Proof.
  assert (Hv : valid_date (mkdate 2024 11 8))
    by (repeat split; vm_compute; discriminate).
  assert (Hy : 1000 <= year (mkdate 2024 11 8) <= 9998) by (simpl; lia).
  split; [exact Hv|]. split; [exact Hy|].
  apply (database_scan_repeats_its_reminders (mkdate 2024 11 8) store2 _ _ Hv Hy).
  simpl. right. right. right. left. reflexivity.
Defined.

(* ================================================================== *)
(** ** The text of a date tells the date *)

Lemma string_of_uint_dash_free (u : Decimal.uint) :
  dash_free (NilEmpty.string_of_uint u) = true.
Proof. induction u; simpl; auto. Qed.

Lemma decimal_dash_free (n : Z) : dash_free (decimal n) = true.
Proof.
  unfold decimal, NilZero.string_of_uint.
  destruct (N.to_uint (Z.to_N n)); try reflexivity;
    apply (string_of_uint_dash_free (_ _)).
Qed.

Lemma split_at_dash (s1 s2 r1 r2 : string) :
  dash_free s1 = true -> dash_free s2 = true ->
  s1 +++ String "-" r1 = s2 +++ String "-" r2 ->
  s1 = s2 /\ r1 = r2.
Proof.
  revert s2. induction s1 as [|c s1 IH]; intros [|c2 s2]; simpl; intros H1 H2 Heq.
  - inversion Heq. auto.
  - inversion Heq; subst. simpl in H2. discriminate.
  - inversion Heq; subst. simpl in H1. discriminate.
  - inversion Heq; subst.
    apply andb_true_iff in H1 as [_ H1]. apply andb_true_iff in H2 as [_ H2].
    destruct (IH s2 H1 H2 H3) as [Hs Hr]. subst. auto.
Qed.

Lemma to_uint_nonnil (n : N) : N.to_uint n <> Decimal.Nil.
Proof.
  destruct n; simpl; [discriminate | apply DecimalPos.Unsigned.to_uint_nonnil].
Qed.

Lemma decimal_inj (y y' : Z) :
  0 <= y -> 0 <= y' -> decimal y = decimal y' -> y = y'.
Proof.
  intros Hy Hy' Heq. unfold decimal in Heq.
  apply (f_equal NilZero.uint_of_string) in Heq.
  rewrite !NilZero.usu in Heq by apply to_uint_nonnil.
  inversion Heq as [Hu]. apply DecimalN.Unsigned.to_uint_inj in Hu. lia.
Qed.

Lemma digit_inj (a b : Z) :
  0 <= a < 10 -> 0 <= b < 10 -> digit a = digit b -> a = b.
Proof.
  intros Ha Hb Heq. unfold digit in Heq.
  apply (f_equal nat_of_ascii) in Heq.
  rewrite !nat_ascii_embedding in Heq by lia. lia.
Qed.

Lemma two_digits_inj (m m' : Z) :
  0 <= m < 100 -> 0 <= m' < 100 -> two_digits m = two_digits m' -> m = m'.
Proof.
  intros Hm Hm' Heq. unfold two_digits in Heq. inversion Heq as [[Hq Hr]].
  pose proof (Z.div_mod m 10 ltac:(lia)).
  pose proof (Z.div_mod m' 10 ltac:(lia)).
  pose proof (Z.mod_pos_bound m 10 ltac:(lia)).
  pose proof (Z.mod_pos_bound m' 10 ltac:(lia)).
  assert (0 <= m / 10 < 10)
    by (split; [apply Z.div_pos; lia | apply Z.div_lt_upper_bound; lia]).
  assert (0 <= m' / 10 < 10)
    by (split; [apply Z.div_pos; lia | apply Z.div_lt_upper_bound; lia]).
  apply digit_inj in Hq; [|assumption..].
  apply digit_inj in Hr; [|assumption..].
  lia.
Qed.

Lemma strftime_Ymd_inj (a b : date) :
  0 <= year a -> 0 <= month a < 100 -> 0 <= day a < 100 ->
  0 <= year b -> 0 <= month b < 100 -> 0 <= day b < 100 ->
  strftime_Ymd a = strftime_Ymd b -> a = b.
Proof.
  destruct a as [y m dd], b as [y' m' dd']. cbn [year month day].
  intros Hy Hm Hd Hy' Hm' Hd' Heq. unfold strftime_Ymd in Heq.
  cbn [year month day] in Heq.
  change ("-" +++ two_digits m +++ "-" +++ two_digits dd)
    with (String "-" (two_digits m +++ "-" +++ two_digits dd)) in Heq.
  change ("-" +++ two_digits m' +++ "-" +++ two_digits dd')
    with (String "-" (two_digits m' +++ "-" +++ two_digits dd')) in Heq.
  apply split_at_dash in Heq; try apply decimal_dash_free.
  destruct Heq as [Hyy Hrest].
  apply decimal_inj in Hyy; [|assumption..].
  assert (Hmm : two_digits m = two_digits m' /\ two_digits dd = two_digits dd').
  { unfold two_digits in *. cbn [String.append] in Hrest.
    inversion Hrest. split; reflexivity. }
  destruct Hmm as [Hmm Hdd].
  apply two_digits_inj in Hmm; [|assumption..].
  apply two_digits_inj in Hdd; [|assumption..].
  subst. reflexivity.
Qed.

Lemma add_one_day_valid (a : date) : valid_date a -> valid_date (add_one_day a).
Proof.
  intros [Hm Hd]. unfold add_one_day, valid_date.
  destruct (day a <? days_in_month (year a) (month a)) eqn:Hlt; cbn [year month day].
  - apply Z.ltb_lt in Hlt. lia.
  - destruct (month a <? 12) eqn:Hm12; cbn [year month day].
    + apply Z.ltb_lt in Hm12.
      pose proof (days_in_month_bounds (year a) (month a + 1)). lia.
    + pose proof (days_in_month_bounds (year a + 1) 1). lia.
Qed.

Lemma add_one_day_inj (a b : date) :
  valid_date a -> valid_date b -> add_one_day a = add_one_day b -> a = b.
Proof.
  destruct a as [y m dd], b as [y' m' dd'].
  unfold valid_date, add_one_day. cbn [year month day].
  intros [Hm Hd] [Hm' Hd'].
  destruct (dd <? days_in_month y m) eqn:H1;
    destruct (dd' <? days_in_month y' m') eqn:H2;
    try destruct (m <? 12) eqn:H3; try destruct (m' <? 12) eqn:H4;
    intros Heq; injection Heq; intros;
    repeat match goal with
           | H : (_ <? _) = true |- _ => apply Z.ltb_lt in H
           | H : (_ <? _) = false |- _ => apply Z.ltb_ge in H
           end;
    assert (y = y') by lia; assert (m = m') by lia; subst;
    f_equal; lia.
Qed.

Lemma tomorrow_text_inj (now now' : date) :
  valid_date now -> valid_date now' -> 0 <= year now -> 0 <= year now' ->
  strftime_Ymd (add_one_day now) = strftime_Ymd (add_one_day now') -> now = now'.
Proof.
  intros Hv Hv' Hy Hy' Heq.
  apply add_one_day_inj; try assumption.
  pose proof (add_one_day_valid now Hv) as [Hm Hd].
  pose proof (add_one_day_valid now' Hv') as [Hm' Hd'].
  pose proof (days_in_month_bounds (year (add_one_day now)) (month (add_one_day now))).
  pose proof (days_in_month_bounds (year (add_one_day now')) (month (add_one_day now'))).
  assert (0 <= year (add_one_day now) /\ 0 <= year (add_one_day now')) as [Hy1 Hy2].
  { unfold add_one_day.
    destruct (day now <? _); destruct (day now' <? _);
      try destruct (month now <? 12); try destruct (month now' <? 12);
      cbn [year]; lia. }
  apply strftime_Ymd_inj; try assumption; lia.
Qed.

(** X12.  The scan of app.py selects a booking on one calendar day only.
    If scans on two valid dates (years from 0 on) both select the same
    resource or space booking row, or bookings of the same event row, the
    two dates are the same day: the day before the date of the row.
    Whatever else the stores hold at the two scans does not matter. *)
Theorem booking_is_due_on_one_day_only (now now' : date) (d d' : db) :
  valid_date now -> valid_date now' -> 0 <= year now -> 0 <= year now' ->
  (forall b r r',
     In (b, r) (App.upcoming_resource_bookings (strftime_Ymd (add_one_day now)) d) ->
     In (b, r') (App.upcoming_resource_bookings (strftime_Ymd (add_one_day now')) d') ->
     now = now')
  /\ (forall b s s',
        In (b, s) (App.upcoming_space_bookings (strftime_Ymd (add_one_day now)) d) ->
        In (b, s') (App.upcoming_space_bookings (strftime_Ymd (add_one_day now')) d') ->
        now = now')
  /\ (forall b b' e,
        In (b, e) (App.upcoming_event_bookings (strftime_Ymd (add_one_day now)) d) ->
        In (b', e) (App.upcoming_event_bookings (strftime_Ymd (add_one_day now')) d') ->
        now = now').
Proof.
  intros Hv Hv' Hy Hy'.
  unfold App.upcoming_resource_bookings, App.upcoming_space_bookings,
    App.upcoming_event_bookings.
  repeat split; intros ? ? ? H1 H2;
    apply filter_In in H1 as [_ H1]; apply filter_In in H2 as [_ H2];
    apply String.eqb_eq in H1, H2; cbn [fst snd] in *;
    apply tomorrow_text_inj; try assumption; congruence.
Qed.

Lemma booking_is_due_on_one_day_only_witness :
  valid_date nov9 /\ 0 <= year nov9
  /\ In (mkbooking 1 1 7 "2024-11-10", mkresource 7 2 "Ladder" (Some "2024-12-25"))
        (App.upcoming_resource_bookings (strftime_Ymd (add_one_day nov9)) store1)
  /\ nov9 = nov9.
Proof.
  assert (Hv : valid_date nov9) by (repeat split; vm_compute; discriminate).
  assert (Hy : 0 <= year nov9) by (simpl; lia).
  assert (Hin : In (mkbooking 1 1 7 "2024-11-10",
                    mkresource 7 2 "Ladder" (Some "2024-12-25"))
                   (App.upcoming_resource_bookings
                      (strftime_Ymd (add_one_day nov9)) store1))
    by (simpl; left; reflexivity).
  split; [exact Hv|]. split; [exact Hy|]. split; [exact Hin|].
  exact (proj1 (booking_is_due_on_one_day_only nov9 nov9 store1 store2 Hv Hv Hy Hy)
           _ _ _ Hin (or_introl eq_refl)).
Defined.

(* ================================================================== *)
(** ** The invariant of the store over all requests *)

Lemma store_invariant_with_messages (d : db) (ms : list message) (seq : Z) :
  store_invariant d -> store_invariant (with_messages d ms seq).
Proof.
  intros [[Hr Hs He Hrb Hsb Heb] [Hur [Hus Hue]]].
  split; [split; assumption|]. repeat split; assumption.
Qed.

Lemma request_store_invariant (d d' : db) :
  Site.request d d' -> store_invariant d -> store_invariant d'.
Proof.
  intros Hreq Hinv. destruct Hreq.
  - exact (step_store_invariant _ _ H Hinv).
  - unfold Site.edit_resource.
    destruct s as [uid|]; [|exact Hinv].
    destruct (get_resource_by_id d _) as [r|]; [|exact Hinv].
    destruct (negb (resource_user_id r =? uid)); [exact Hinv|].
    destruct m; [exact Hinv|].
    exact (step_store_invariant _ _ (step_update_resource _ _ _ _) Hinv).
  - unfold Site.delete_resource_route.
    destruct s as [uid|]; [|exact Hinv].
    destruct (get_resource_by_id d _) as [r|]; [|exact Hinv].
    destruct (negb (resource_user_id r =? uid)); [exact Hinv|].
    exact (step_store_invariant _ _ (step_delete_resource _ _) Hinv).
  - unfold Site.edit_space.
    destruct (App.logged_in s) as [uid|]; [|exact Hinv].
    destruct (get_space_by_id d _) as [sp|]; [|exact Hinv].
    destruct (negb (created_by sp =? uid)); [exact Hinv|].
    destruct m; [exact Hinv|].
    exact (step_store_invariant _ _ (step_update_space _ _ _ _) Hinv).
  - unfold Site.delete_space.
    destruct (App.logged_in s) as [uid|]; [|exact Hinv].
    destruct (get_space_by_id d _) as [sp|]; [|exact Hinv].
    destruct (negb (created_by sp =? uid)); [exact Hinv|].
    exact (step_store_invariant _ _ (step_delete_space _ _) Hinv).
  - unfold Site.edit_event.
    destruct (App.logged_in s) as [uid|]; [|exact Hinv].
    destruct (get_event_by_id d _) as [row|]; [|exact Hinv].
    destruct (getitem row "hosted_by") as [host|]; [|exact Hinv].
    destruct (differs_from host uid); [exact Hinv|].
    destruct m; [exact Hinv|].
    exact (step_store_invariant _ _ (step_update_event _ _ _ _) Hinv).
  - unfold Site.delete_event.
    destruct (App.logged_in s) as [uid|]; [|exact Hinv].
    destruct (get_event_by_id d _) as [row|]; [|exact Hinv].
    destruct (getitem row "hosted_by") as [host|]; [|exact Hinv].
    destruct (differs_from host uid); [exact Hinv|].
    exact (step_store_invariant _ _ (step_delete_event _ _) Hinv).
  - destruct (send_message_route_cases s m c r d)
      as [Heq|[uid [u [text [rowid [_ [_ [_ [_ [_ [_ [Hm _]]]]]]]]]]]].
    + rewrite Heq. exact Hinv.
    + rewrite Hm. apply store_invariant_with_messages. exact Hinv.
Qed.

(** X13.  Every run of requests (booking, unbooking, editing, deleting and
    message routes, scheduler ticks, catalog inserts) keeps the store well
    formed: keys unique, booking tables in rowid order, and at most one
    booking row per user and entity in each booking table.  A store that
    starts from a new database is always in that state. *)
Theorem run_keeps_the_store_invariant (d d' : db) :
  store_invariant d -> Site.run d d' -> store_invariant d'.
Proof.
  intros Hinv Hrun. induction Hrun as [|d d1 d2 _ IH Hreq]; [exact Hinv|].
  exact (request_store_invariant d1 d2 Hreq (IH Hinv)).
Qed.

Lemma run_keeps_the_store_invariant_witness :
  store_invariant init_db
  /\ store_invariant
       (fst (Site.delete_resource_route (Some 2) 1
               (fst (App.book_resource_route (Some 1) nov9 1 listed)))).
Proof.
  assert (Hinit : store_invariant init_db).
  { split; [exact init_db_well_formed|].
    repeat split; unfold unique_bookings; simpl; constructor. }
  split; [exact Hinit|].
  apply (run_keeps_the_store_invariant init_db _ Hinit).
  eapply Site.run_next; [eapply Site.run_next; [eapply Site.run_next|]|].
  - apply Site.run_done.
  - apply Site.request_step.
    apply (step_create_resource (Some 2) (Some "Ladder") (Some "2024-12-25")
             init_db listed).
    reflexivity.
  - apply Site.request_step. apply (step_book_resource (Some 1) nov9 1).
  - apply (Site.request_delete_resource (Some 2) 1).
Defined.

(* ================================================================== *)
(** ** An edited title in the lists of bookings *)

(** X14.  The title of a resource is not copied into its bookings: once
    update_resource has changed it, every user's list of bookings shows the
    new title for the bookings of that resource, and the other lines as
    before. *)
Theorem edited_title_shows_in_the_lists (d : db) (rid : Z) (new_title : string)
    (new_availability : option string) (uid : Z) :
  get_resource_bookings_by_user
    (update_resource d rid new_title new_availability) uid
  = map (fun x => (fst x, if entity_id (fst x) =? rid then new_title else snd x))
        (get_resource_bookings_by_user d uid).
Proof.
  unfold get_resource_bookings_by_user, update_resource.
  cbn [resources resource_bookings with_resources].
  rewrite (join_map_entities resource_id); cycle 1.
  { intros e. destruct (resource_id e =? rid); reflexivity. }
  pose proof (fun b e => proj1 (join_In resource_id (resource_bookings d)
                                        (resources d) b e)) as Hjoin.
  induction (join resource_id (resource_bookings d) (resources d)) as [|x l IH];
    simpl; [reflexivity|].
  assert (Hrest : forall b e, In (b, e) l ->
            In b (resource_bookings d) /\ In e (resources d)
            /\ entity_id b = resource_id e)
    by (intros b e Hin; apply Hjoin; right; exact Hin).
  destruct x as [b e]. cbn [fst snd].
  destruct (Hjoin b e (or_introl eq_refl)) as [_ [_ Hk]].
  destruct (user_id b =? uid); simpl; rewrite (IH Hrest); [|reflexivity].
  f_equal. f_equal. rewrite Hk.
  destruct (resource_id e =? rid); reflexivity.
Qed.
